(** * Deuces: [notebooks/sandbox/read_docs.py]

    A shallow embedding of the document-conversion script and the proofs of
    its specification.  The script imports two parsing libraries (installing
    them with pip when the import fails), extracts the text of one PDF and
    one DOCX file, and writes both texts, each under a header, into one
    UTF-8 text file.

    Python values are modelled as the script has them: a [str] is a sequence
    of Unicode code points, a [bytes] object a sequence of octets, the file
    system a finite map from paths to files, the interpreter's importable
    modules a finite set.  Exceptions and the mutation of the outside world
    are threaded through a state-and-exception monad. *)

From Stdlib Require Import ZArith List String Ascii Lia.
From stdpp Require Import gmap strings list fin_maps.

Local Open Scope Z_scope.

(** ** Python values *)

(** A Python [str]: the sequence of its code points. *)
Abbreviation str := (list Z) (only parsing).

(** A Python [bytes]: the sequence of its octets, each in [0, 256). *)
Abbreviation bytes := (list Z) (only parsing).

(** The code points of an ASCII literal of the source. *)
Definition lit (s : string) : list Z :=
  map (fun a => Z.of_N (N_of_ascii a)) (list_ascii_of_string s).

(** ['\n'] *)
Definition NL : Z := 10.

(** ** The [utf-8] codec, [errors='strict']

    [codecs.open(..., "w", "utf-8")] wraps the binary stream in a writer that
    encodes every [str] passed to [write] before handing the octets on.  The
    strict codec refuses surrogates (and nothing else a [str] can hold). *)

Definition utf_8_encode_char (c : Z) : option (list Z) :=
  if c <? 0 then None
  else if c <? 0x80 then Some [c]
  else if c <? 0x800 then
    Some [Z.lor 0xC0 (Z.shiftr c 6); Z.lor 0x80 (Z.land c 0x3F)]
  else if c <? 0x10000 then
    if (0xD800 <=? c) && (c <=? 0xDFFF) then None
    else Some [Z.lor 0xE0 (Z.shiftr c 12);
               Z.lor 0x80 (Z.land (Z.shiftr c 6) 0x3F);
               Z.lor 0x80 (Z.land c 0x3F)]
  else if c <? 0x110000 then
    Some [Z.lor 0xF0 (Z.shiftr c 18);
          Z.lor 0x80 (Z.land (Z.shiftr c 12) 0x3F);
          Z.lor 0x80 (Z.land (Z.shiftr c 6) 0x3F);
          Z.lor 0x80 (Z.land c 0x3F)]
  else None.

Fixpoint utf_8_encode (s : str) : option bytes :=
  match s with
  | [] => Some []
  | c :: s' =>
      match utf_8_encode_char c, utf_8_encode s' with
      | Some b, Some bs => Some (b ++ bs)
      | _, _ => None
      end
  end.

(** ** Exceptions *)

Inductive exn : Type :=
| ImportError (name : string)
| CalledProcessError (package : string)
| FileNotFoundError (path : string)
| PermissionError (path : string)
| PdfReadError (message : string)
| PackageNotFoundError (path : string)
| KeyError (key : string)
| UnicodeEncodeError
| ValueError.

(** How a call ends: it returns a value or raises. *)
Inductive result (A : Type) : Type :=
| Return (a : A)
| Raise (e : exn).
Arguments Return {A} a.
Arguments Raise {A} e.

(** The spec's taxonomy of errors. *)
Definition is_ImportError (e : exn) : bool :=
  match e with ImportError _ => true | _ => false end.

Definition file_access_error (e : exn) : bool :=
  match e with FileNotFoundError _ | PermissionError _ => true | _ => false end.


(** ** The third-party libraries

    What the script uses of them: a parsed PDF has [pages], each with
    [extract_text()]; a parsed DOCX has [paragraphs], each with [text].  The
    records below hold a document all of whose pages gave their text.  The
    libraries themselves are not part of the repository: what their calls do
    with the octets of a file is a parameter of the development. *)

Module PyPDF2.
Record PageObject : Type := { extract_text : list Z }.
Record PdfReader : Type := { pages : list PageObject }.
End PyPDF2.

Module docx.
Record Paragraph : Type := { text : list Z }.
Record Document : Type := { paragraphs : list Paragraph }.
End docx.

Class Libraries : Type := {
  (** [PyPDF2.PdfReader(f)] on the octets of [f]: it raises, or it returns a
      reader.  The reader is given by what the loop over [reader.pages] then
      meets, step after step: the text that [page.extract_text()] returns, or
      the exception raised on the way to it, by [reader.pages] when it hands
      out the page or by [page.extract_text()]. *)
  PdfReader_init : list Z -> result (list (result (list Z)));
  (** [docx.Document] on the octets of a package it could open: it raises,
      or it returns the document. *)
  Document_init : list Z -> result docx.Document
}.

(** The values of the calls that returned, when all of them did. *)
Fixpoint all_returned {A} (steps : list (result A)) : option (list A) :=
  match steps with
  | [] => Some []
  | Return a :: rest =>
      match all_returned rest with
      | Some l => Some (a :: l)
      | None => None
      end
  | Raise _ :: _ => None
  end.

(** The parsed PDF, when [PdfReader] returned and every page gave its text. *)
Definition parse_pdf {libs : Libraries} (b : list Z) : option PyPDF2.PdfReader :=
  match PdfReader_init b with
  | Return steps =>
      match all_returned steps with
      | Some texts =>
          Some {| PyPDF2.pages := map PyPDF2.Build_PageObject texts |}
      | None => None
      end
  | Raise _ => None
  end.

(** The parsed DOCX, when [docx.Document] returned. *)
Definition parse_docx {libs : Libraries} (b : list Z) : option docx.Document :=
  match Document_init b with
  | Return doc => Some doc
  | Raise _ => None
  end.

(** ** The outside world *)

Record File : Type := { readable : bool; writable : bool; data : list Z }.

Inductive Event : Type :=
| EvImport (name : string)
| EvPipInstall (package : string).

Global Instance Event_eq_dec : EqDecision Event.
Proof. solve_decision. Defined.

Record World : Type := {
  (** the file system: path to file *)
  fs : gmap string File;
  (** for a path, the directory that holds or would hold the file: [true]
      when a file can be created in it, [false] when the directory may not
      be written, absent when there is no such directory *)
  directory : gmap string bool;
  (** write streams that are open, with the octets written so far *)
  streams : gmap string (list Z);
  (** modules an [import] statement finds *)
  importable : gset string;
  (** the modules [pip install] of a package brings; absent: pip fails *)
  pip_index : gmap string (gset string);
  (** what the run did to its environment, latest last *)
  trace : list Event
}.

Definition set_fs (f : gmap string File -> gmap string File) (w : World) : World :=
  {| fs := f (fs w); directory := directory w; streams := streams w;
     importable := importable w; pip_index := pip_index w; trace := trace w |}.

Definition set_streams (f : gmap string (list Z) -> gmap string (list Z))
    (w : World) : World :=
  {| fs := fs w; directory := directory w; streams := f (streams w);
     importable := importable w; pip_index := pip_index w; trace := trace w |}.

Definition set_importable (f : gset string -> gset string) (w : World) : World :=
  {| fs := fs w; directory := directory w; streams := streams w;
     importable := f (importable w); pip_index := pip_index w; trace := trace w |}.

Definition log (ev : Event) (w : World) : World :=
  {| fs := fs w; directory := directory w; streams := streams w;
     importable := importable w; pip_index := pip_index w;
     trace := trace w ++ [ev] |}.

(** ** The monad of statements: state and exceptions *)

Definition M (A : Type) : Type := World -> result A * World.

Definition ret {A} (a : A) : M A := fun w => (Return a, w).

Definition raise {A} (e : exn) : M A := fun w => (Raise e, w).

Definition bind {A B} (m : M A) (k : A -> M B) : M B :=
  fun w =>
    match m w with
    | (Return a, w') => k a w'
    | (Raise e, w') => (Raise e, w')
    end.

Notation "x <- m ;; k" := (bind m (fun x => k))
  (at level 100, m at next level, right associativity).
Notation "m ;; k" := (bind m (fun _ => k))
  (at level 100, right associativity).

(** [try: m except E: h] for the exceptions [E] that [catches] accepts. *)
Definition try_except {A} (m : M A) (catches : exn -> bool) (h : M A) : M A :=
  fun w =>
    match m w with
    | (Return a, w') => (Return a, w')
    | (Raise e, w') => if catches e then h w' else (Raise e, w')
    end.

(** The exit of a [with] block: [cleanup] runs however [m] ended, and the
    outcome of [m] is kept. *)
Definition on_exit {A} (m : M A) (cleanup : World -> World) : M A :=
  fun w => let '(r, w') := m w in (r, cleanup w').

(** A library call that touches nothing of the world: it returns or raises. *)
Definition of_result {A} (r : result A) : M A := fun w => (r, w).

(** ** Start-up: import, or install and import again *)

(** [import name] *)
Definition import_ (name : string) : M unit :=
  fun w =>
    let w' := log (EvImport name) w in
    if decide (name ∈ importable w) then (Return tt, w')
    else (Raise (ImportError name), w').

(** Where pip puts a module: the interpreter's package directory. *)
Definition site_packages (name : string) : string := "site-packages/" +:+ name.

Definition new_file : File :=
  {| readable := true; writable := true; data := [] |}.

(** The files pip writes for the modules of a package.  One entry per module
    stands for the package's files: how many they are and what they hold
    plays no part in the script. *)
Definition install_files (modules : gset string) (files : gmap string File)
    : gmap string File :=
  set_fold (fun name acc => <[site_packages name := new_file]> acc) files modules.

(** [subprocess.check_call([sys.executable, "-m", "pip", "install", package,
    "--quiet"])]: pip writes the package into the package directory, which
    makes its modules importable; a non-zero exit status raises
    [CalledProcessError]. *)
Definition pip_install (package : string) : M unit :=
  fun w =>
    let w' := log (EvPipInstall package) w in
    match pip_index w !! package with
    | Some modules =>
        (Return tt,
         set_fs (install_files modules) (set_importable (union modules) w'))
    | None => (Raise (CalledProcessError package), w')
    end.

(** [try: import name / except ImportError: pip install package; import name] *)
Definition import_or_install (name package : string) : M unit :=
  try_except (import_ name) is_ImportError
             (pip_install package ;; import_ name).

Definition startup : M unit :=
  import_or_install "PyPDF2" "PyPDF2" ;;
  import_or_install "docx" "python-docx".

(** ** The two extractors *)

(** [open(file_path, 'rb')], read to the end. *)
Definition open_rb (file_path : string) : M bytes :=
  fun w =>
    match fs w !! file_path with
    | None => (Raise (FileNotFoundError file_path), w)
    | Some f =>
        if readable f then (Return (data f), w)
        else (Raise (PermissionError file_path), w)
    end.

(** The loop of [read_pdf],
    [for page in reader.pages: text += page.extract_text() + '\n'],
    from the text so far: a step that raises ends the loop and the function,
    and the text built so far is lost. *)
Fixpoint pdf_loop (steps : list (result (list Z))) (text : list Z) : M str :=
  match steps with
  | [] => ret text
  | step :: rest =>
      t <- of_result step ;;
      pdf_loop rest (text ++ (t ++ [NL]))
  end.

(** What the loop returns, from [text = ''], on a document all of whose
    pages gave their text. *)
Definition pdf_text (reader : PyPDF2.PdfReader) : str :=
  fold_left (fun text page => text ++ (PyPDF2.extract_text page ++ [NL]))
            (PyPDF2.pages reader) [].

(** [str.join]: the items in order, [sep] before every item but the first. *)
Definition str_join (sep : str) (items : list (list Z)) : str :=
  match items with
  | [] => []
  | first :: rest => fold_left (fun res item => res ++ sep ++ item) rest first
  end.

Section Script.
Context {libs : Libraries}.

(** [with open(file_path, 'rb') as f: reader = PyPDF2.PdfReader(f); ...;
    return text].  Closing [f] on the way out changes nothing that can be
    seen. *)
Definition read_pdf (file_path : string) : M str :=
  f <- open_rb file_path ;;
  reader <- of_result (PdfReader_init f) ;;
  pdf_loop reader [].

(** [docx.Document(file_path)]: the library is given the path and opens the
    file itself.  A path at which it finds no file, or a file it may not
    read, it reports with its own [PackageNotFoundError]; what it makes of
    octets it could read is the library's. *)
Definition docx_Document (file_path : string) : M docx.Document :=
  fun w =>
    match fs w !! file_path with
    | None => (Raise (PackageNotFoundError file_path), w)
    | Some f =>
        if readable f then (Document_init (data f), w)
        else (Raise (PackageNotFoundError file_path), w)
    end.

Definition read_docx (file_path : string) : M str :=
  doc <- docx_Document file_path ;;
  ret (str_join [NL] (map docx.text (docx.paragraphs doc))).

(** ** The output file *)

Definition OUT_PATH : string :=
  "C:\Users\rblos\datascience\Deuces\notebooks\sandbox\docs_output.txt".
Definition PDF_PATH : string :=
  "C:\Users\rblos\datascience\Deuces\GUIDENCE\Team Project Instructions.pdf".
Definition DOCX_PATH : string :=
  "C:\Users\rblos\datascience\Deuces\GUIDENCE\Base Case 1.docx".

(** ["=== TEAM PROJECT INSTRUCTIONS ===\n"] *)
Definition HEADER_PDF : str := lit "=== TEAM PROJECT INSTRUCTIONS ===" ++ [NL].
(** ["\n=== BASE CASE 1 ===\n"] *)
Definition HEADER_DOCX : str := [NL] ++ lit "=== BASE CASE 1 ===" ++ [NL].

Definition truncated (f : File) : File :=
  {| readable := readable f; writable := writable f; data := [] |}.

Definition appended (b : bytes) (f : File) : File :=
  {| readable := readable f; writable := writable f; data := data f ++ b |}.

(** [codecs.open(path, "w", "utf-8")]: the file is opened in binary mode for
    writing, which creates it or empties it at once; what is written stays in
    the stream until the stream is closed. The handle is the path.  A file
    that may not be written and a directory in which no file may be created
    give [PermissionError], a directory that is not there
    [FileNotFoundError]. *)
Definition codecs_open_w (path : string) : M string :=
  fun w =>
    match fs w !! path with
    | Some f =>
        if writable f
        then (Return path,
              set_streams <[path := []]> (set_fs <[path := truncated f]> w))
        else (Raise (PermissionError path), w)
    | None =>
        match directory w !! path with
        | Some true =>
            (Return path,
             set_streams <[path := []]> (set_fs <[path := new_file]> w))
        | Some false => (Raise (PermissionError path), w)
        | None => (Raise (FileNotFoundError path), w)
        end
    end.

(** [out.write(s)]: encode, then hand the octets to the stream (which refuses
    them when it is closed). *)
Definition write (out : string) (s : str) : M unit :=
  fun w =>
    match utf_8_encode s with
    | None => (Raise UnicodeEncodeError, w)
    | Some b =>
        match streams w !! out with
        | None => (Raise ValueError, w)
        | Some buf => (Return tt, set_streams <[out := buf ++ b]> w)
        end
    end.

(** [out.close()], which the [with] block calls on every exit: the stream's
    octets reach the file. *)
Definition close (out : string) (w : World) : World :=
  match streams w !! out with
  | None => w
  | Some buf => set_streams (delete out) (set_fs (alter (appended buf) out) w)
  end.

(** The [with] block at module level. *)
Definition main : M unit :=
  out <- codecs_open_w OUT_PATH ;;
  on_exit
    (write out HEADER_PDF ;;
     (text <- read_pdf PDF_PATH ;; write out text) ;;
     write out HEADER_DOCX ;;
     (text <- read_docx DOCX_PATH ;; write out text))
    (close out).

(** The whole module, top to bottom. *)
Definition script : M unit := startup ;; main.

(** The octets of the file at [path], when there is one. *)
Definition file_bytes (path : string) (w : World) : option bytes :=
  data <$> fs w !! path.

End Script.

(** ** A small instance of the libraries, for concrete runs

    A toy PDF is the magic ["%PDF"] followed by pages, each ended by a form
    feed; a toy DOCX is the magic ["PK"] followed by paragraphs, each ended by
    a carriage return.  A page's or paragraph's text is its octets read as
    code points.  A page that is the single octet 0 has no content to
    extract: the step of the loop that comes to it raises [KeyError]. *)

Fixpoint split_ended (term : Z) (cur : list Z) (b : list Z) : list (list Z) :=
  match b with
  | [] => []
  | c :: b' =>
      if c =? term then rev cur :: split_ended term [] b'
      else split_ended term (c :: cur) b'
  end.

Fixpoint strip_prefix (magic b : list Z) : option (list Z) :=
  match magic, b with
  | [], _ => Some b
  | m :: magic', c :: b' => if m =? c then strip_prefix magic' b' else None
  | _ :: _, [] => None
  end.

Definition toy_page (t : list Z) : result (list Z) :=
  match t with
  | [0] => Raise (KeyError "/Contents")
  | _ => Return t
  end.

Definition toy_PdfReader (b : list Z) : result (list (result (list Z))) :=
  match strip_prefix (lit "%PDF") b with
  | Some body => Return (map toy_page (split_ended 12 [] body))
  | None => Raise (PdfReadError "EOF marker not found")
  end.

Definition toy_Document (b : list Z) : result docx.Document :=
  match strip_prefix (lit "PK") b with
  | Some body =>
      Return {| docx.paragraphs := map docx.Build_Paragraph (split_ended 13 [] body) |}
  | None => Raise (KeyError "[Content_Types].xml")
  end.

Definition toy : Libraries :=
  {| PdfReader_init := toy_PdfReader; Document_init := toy_Document |}.

Definition plain_file (b : list Z) : File :=
  {| readable := true; writable := true; data := b |}.

(** A world with both libraries installed, a two-page PDF, a two-paragraph
    DOCX, and no output file yet. *)
Definition world_ok : World :=
  {| fs := {[ PDF_PATH := plain_file (lit "%PDF" ++ lit "ab" ++ [12] ++ lit "c" ++ [12]);
              DOCX_PATH := plain_file (lit "PK" ++ lit "x" ++ [13] ++ lit "yz" ++ [13]) ]};
     directory := {[ OUT_PATH := true ]};
     streams := ∅;
     importable := {[ "PyPDF2"%string; "docx"%string ]};
     pip_index := ∅;
     trace := [] |}.

(** The same with a PDF of no pages and a DOCX of no paragraphs. *)
Definition world_empty_docs : World :=
  {| fs := {[ PDF_PATH := plain_file (lit "%PDF");
              DOCX_PATH := plain_file (lit "PK") ]};
     directory := {[ OUT_PATH := true ]};
     streams := ∅;
     importable := {[ "PyPDF2"%string; "docx"%string ]};
     pip_index := ∅;
     trace := [] |}.

(** No PDF at its path, and an output file left by an earlier run. *)
Definition world_no_pdf : World :=
  {| fs := {[ OUT_PATH := plain_file (lit "old");
              DOCX_PATH := plain_file (lit "PK" ++ lit "x" ++ [13]) ]};
     directory := ∅;
     streams := ∅;
     importable := {[ "PyPDF2"%string; "docx"%string ]};
     pip_index := ∅;
     trace := [] |}.

(** Neither library installed; pip can install both. *)
Definition world_fresh : World :=
  {| fs := {[ PDF_PATH := plain_file (lit "%PDF" ++ lit "ab" ++ [12]);
              DOCX_PATH := plain_file (lit "PK" ++ lit "x" ++ [13]) ]};
     directory := {[ OUT_PATH := true ]};
     streams := ∅;
     importable := ∅;
     pip_index := {[ "PyPDF2"%string := {[ "PyPDF2"%string ]};
                     "python-docx"%string := {[ "docx"%string ]} ]};
     trace := [] |}.

(** More worlds for concrete runs. Nothing on disk at all, the output file
    can be created. *)
Definition world_bare : World :=
  {| fs := ∅;
     directory := {[ OUT_PATH := true ]};
     streams := ∅;
     importable := {[ "PyPDF2"%string; "docx"%string ]};
     pip_index := ∅;
     trace := [] |}.

(** [world_ok] with other leftovers in the output file, other permissions to
    create files, and the libraries still to be installed. *)
Definition world_ok_again : World :=
  {| fs := {[ PDF_PATH := plain_file (lit "%PDF" ++ lit "ab" ++ [12] ++ lit "c" ++ [12]);
              DOCX_PATH := plain_file (lit "PK" ++ lit "x" ++ [13] ++ lit "yz" ++ [13]);
              OUT_PATH := plain_file (lit "left over") ]};
     directory := ∅;
     streams := ∅;
     importable := ∅;
     pip_index := {[ "PyPDF2"%string := {[ "PyPDF2"%string ]};
                     "python-docx"%string := {[ "docx"%string ]} ]};
     trace := [] |}.

(** A PDF of one page, no DOCX at its path. *)
Definition world_no_docx : World :=
  {| fs := {[ PDF_PATH := plain_file (lit "%PDF" ++ lit "ab" ++ [12]) ]};
     directory := {[ OUT_PATH := true ]};
     streams := ∅;
     importable := {[ "PyPDF2"%string; "docx"%string ]};
     pip_index := ∅;
     trace := [] |}.

(** [world_ok] with an output file that may not be written. *)
Definition world_readonly_out : World :=
  {| fs := {[ PDF_PATH := plain_file (lit "%PDF" ++ lit "ab" ++ [12]);
              DOCX_PATH := plain_file (lit "PK" ++ lit "x" ++ [13]);
              OUT_PATH := {| readable := true; writable := false;
                             data := lit "keep" |} ]};
     directory := {[ OUT_PATH := true ]};
     streams := ∅;
     importable := {[ "PyPDF2"%string; "docx"%string ]};
     pip_index := ∅;
     trace := [] |}.

(** The first library installed, the second not, and pip without a package
    to offer. *)
Definition world_offline : World :=
  {| fs := {[ PDF_PATH := plain_file (lit "%PDF" ++ lit "ab" ++ [12]);
              DOCX_PATH := plain_file (lit "PK" ++ lit "x" ++ [13]) ]};
     directory := {[ OUT_PATH := true ]};
     streams := ∅;
     importable := {[ "PyPDF2"%string ]};
     pip_index := ∅;
     trace := [] |}.

(** A toy PDF parser whose pages hold wide characters: every octet of a page
    is the high octet of a 16-bit code point. *)
Definition toy_PdfReader_wide (b : list Z) : result (list (result (list Z))) :=
  match strip_prefix (lit "%PDF") b with
  | Some body =>
      Return (map (fun t => Return (map (Z.mul 256) t)) (split_ended 12 [] body))
  | None => Raise (PdfReadError "EOF marker not found")
  end.

Definition toy_wide : Libraries :=
  {| PdfReader_init := toy_PdfReader_wide; Document_init := toy_Document |}.

(** A PDF whose one page is, read by [toy_wide], the lone surrogate U+D800. *)
Definition world_surrogate : World :=
  {| fs := {[ PDF_PATH := plain_file (lit "%PDF" ++ [0xD8] ++ [12]);
              DOCX_PATH := plain_file (lit "PK" ++ lit "x" ++ [13]) ]};
     directory := {[ OUT_PATH := true ]};
     streams := ∅;
     importable := {[ "PyPDF2"%string; "docx"%string ]};
     pip_index := ∅;
     trace := [] |}.

(** Neither library installed; pip can install the first package and has
    nothing to offer for the second. *)
Definition world_half_install : World :=
  {| fs := {[ PDF_PATH := plain_file (lit "%PDF" ++ lit "ab" ++ [12]);
              DOCX_PATH := plain_file (lit "PK" ++ lit "x" ++ [13]) ]};
     directory := {[ OUT_PATH := true ]};
     streams := ∅;
     importable := ∅;
     pip_index := {[ "PyPDF2"%string := {[ "PyPDF2"%string ]} ]};
     trace := [] |}.

(** [world_ok] with no output file and a directory for it in which no file
    may be created. *)
Definition world_no_write_dir : World :=
  {| fs := {[ PDF_PATH := plain_file (lit "%PDF" ++ lit "ab" ++ [12]);
              DOCX_PATH := plain_file (lit "PK" ++ lit "x" ++ [13]) ]};
     directory := {[ OUT_PATH := false ]};
     streams := ∅;
     importable := {[ "PyPDF2"%string; "docx"%string ]};
     pip_index := ∅;
     trace := [] |}.


(** ** The spec's two layouts of extracted text *)

(** [T_1 + "\n" + T_2 + "\n" + ... + T_N + "\n"]: a newline after every
    text, the last included. *)
Fixpoint newline_after_each (texts : list (list Z)) : list Z :=
  match texts with
  | [] => []
  | t :: rest => t ++ [NL] ++ newline_after_each rest
  end.

(** [P_1 + "\n" + P_2 + ... + "\n" + P_M]: a newline between consecutive
    texts and nowhere else. *)
Fixpoint newline_between (texts : list (list Z)) : list Z :=
  match texts with
  | [] => []
  | [p] => p
  | p :: rest => p ++ [NL] ++ newline_between rest
  end.

(** The number of code points of all the texts together. *)
Definition total_length (texts : list (list Z)) : nat :=
  fold_right (fun t n => (length t + n)%nat) 0%nat texts.

(** ** Views of a run, for the proofs

    What the statements of the script come to, as functions of what they
    find in the world. *)

(** The file [codecs.open] leaves at the path: the old one emptied, or a new
    one. *)
Definition opened_file (path : string) (w : World) : File :=
  match fs w !! path with
  | Some f => truncated f
  | None => new_file
  end.

(** Whether [codecs.open(path, "w", ...)] succeeds. *)
Definition can_open_w (path : string) (w : World) : bool :=
  match fs w !! path with
  | Some f => writable f
  | None =>
      match directory w !! path with
      | Some true => true
      | _ => false
      end
  end.

(** How the body of the [with] block ends and what it has put into the
    stream by then, from what the two extractors make of their files. *)
Definition body_outcome (rp rd : result (list Z)) : result unit * list Z :=
  match rp with
  | Raise e => (Raise e, HEADER_PDF)
  | Return tp =>
      match utf_8_encode tp with
      | None => (Raise UnicodeEncodeError, HEADER_PDF)
      | Some bp =>
          match rd with
          | Raise e => (Raise e, HEADER_PDF ++ bp ++ HEADER_DOCX)
          | Return td =>
              match utf_8_encode td with
              | None => (Raise UnicodeEncodeError, HEADER_PDF ++ bp ++ HEADER_DOCX)
              | Some bd => (Return tt, HEADER_PDF ++ bp ++ HEADER_DOCX ++ bd)
              end
          end
      end
  end.

(** The world once the [with] block is left with [b] in the stream. *)
Definition closed_world (b : list Z) (w : World) : World :=
  set_streams (delete OUT_PATH)
    (set_fs <[OUT_PATH := appended b (opened_file OUT_PATH w)]> w).

(** What the loop of [read_pdf] makes of its steps, from the text so far. *)
Fixpoint loop_outcome (steps : list (result (list Z))) (text : list Z)
    : result (list Z) :=
  match steps with
  | [] => Return text
  | Return t :: rest => loop_outcome rest (text ++ (t ++ [NL]))
  | Raise e :: _ => Raise e
  end.

Section Outcomes.
Context {libs : Libraries}.

(** What [read_pdf] makes of the file found at its path. *)
Definition pdf_outcome (file_path : string) (o : option File) : result (list Z) :=
  match o with
  | None => Raise (FileNotFoundError file_path)
  | Some f =>
      if readable f then
        match PdfReader_init (data f) with
        | Return steps => loop_outcome steps []
        | Raise e => Raise e
        end
      else Raise (PermissionError file_path)
  end.

(** What [read_docx] makes of the file found at its path. *)
Definition docx_outcome (file_path : string) (o : option File) : result (list Z) :=
  match o with
  | None => Raise (PackageNotFoundError file_path)
  | Some f =>
      if readable f then
        match Document_init (data f) with
        | Return doc => Return (str_join [NL] (map docx.text (docx.paragraphs doc)))
        | Raise e => Raise e
        end
      else Raise (PackageNotFoundError file_path)
  end.

End Outcomes.

(** The events a run from [w] to [w'] added to the trace. *)
Definition new_events (w w' : World) : list Event :=
  drop (length (trace w)) (trace w').

(** A path outside the package directory. *)
Definition outside_site_packages (path : string) : Prop :=
  forall name, path <> site_packages name.

(** Two worlds that differ at most in the modules installed, the files of
    the package directory and the trace. *)
Definition same_files (w w' : World) : Prop :=
  (forall path, outside_site_packages path -> fs w' !! path = fs w !! path)
  /\ directory w' = directory w /\ streams w' = streams w
  /\ pip_index w' = pip_index w.


(** ** The spec's fallback for a missing library

    "Missing-library errors, handled by an install-then-reimport fallback
    exactly once per library; if installation itself fails, the error
    propagates uncaught".  What the fallback does for one library, from the
    modules that import and what pip has to offer: the imports and installs
    in order, how it ends, and the modules that import afterwards. *)

Definition fallback_events (name package : string)
    (imp : gset string) (pip : gmap string (gset string)) : list Event :=
  if decide (name ∈ imp) then [EvImport name]
  else match pip !! package with
       | Some _ => [EvImport name; EvPipInstall package; EvImport name]
       | None => [EvImport name; EvPipInstall package]
       end.

Definition fallback_result (name package : string)
    (imp : gset string) (pip : gmap string (gset string)) : result unit :=
  if decide (name ∈ imp) then Return tt
  else match pip !! package with
       | Some modules =>
           if decide (name ∈ modules) then Return tt
           else Raise (ImportError name)
       | None => Raise (CalledProcessError package)
       end.

Definition fallback_importable (name package : string)
    (imp : gset string) (pip : gmap string (gset string)) : gset string :=
  if decide (name ∈ imp) then imp
  else match pip !! package with
       | Some modules => modules ∪ imp
       | None => imp
       end.

(** A text of ASCII characters only. *)
Definition ascii_text (s : list Z) : Prop := Forall (fun c => 0 <= c < 0x80) s.

(** * Proofs *)

(** ** The codec *)

Lemma utf_8_encode_app (a b : list Z) :
  utf_8_encode (a ++ b) =
  match utf_8_encode a, utf_8_encode b with
  | Some x, Some y => Some (x ++ y)
  | _, _ => None
  end.
Proof.
  induction a as [|c a IH]; simpl.
  - destruct (utf_8_encode b); reflexivity.
  - rewrite IH.
    destruct (utf_8_encode_char c) as [x|]; [|reflexivity].
    destruct (utf_8_encode a) as [xs|]; [|reflexivity].
    destruct (utf_8_encode b) as [ys|]; [|reflexivity].
    by rewrite app_assoc.
Qed.

Lemma utf_8_encode_app_Some (a b x y : list Z) :
  utf_8_encode a = Some x -> utf_8_encode b = Some y ->
  utf_8_encode (a ++ b) = Some (x ++ y).
Proof. intros Ha Hb. by rewrite utf_8_encode_app, Ha, Hb. Qed.

(** ASCII text is its own encoding. *)
Lemma utf_8_encode_ascii (s : list Z) :
  Forall (fun c => 0 <= c < 0x80) s -> utf_8_encode s = Some s.
Proof.
  induction 1 as [|c s [Hlo Hhi] _ IH]; [reflexivity|].
  simpl. rewrite IH. unfold utf_8_encode_char.
  destruct (Z.ltb_spec c 0); [lia|].
  destruct (Z.ltb_spec c 0x80); [reflexivity|lia].
Qed.

Lemma encode_HEADER_PDF : utf_8_encode HEADER_PDF = Some HEADER_PDF.
Proof. reflexivity. Qed.

Lemma encode_HEADER_DOCX : utf_8_encode HEADER_DOCX = Some HEADER_DOCX.
Proof. reflexivity. Qed.

(** Every octet the codec produces is an octet. *)
Lemma Z_lor_bound (a b n : Z) :
  0 <= n -> 0 <= a < 2 ^ n -> 0 <= b < 2 ^ n -> 0 <= Z.lor a b < 2 ^ n.
Proof.
  intros Hn Ha Hb.
  assert (H0 : 0 <= Z.lor a b) by (apply Z.lor_nonneg; lia).
  split; [exact H0|].
  destruct (decide (Z.lor a b = 0)) as [->|Hne]; [lia|].
  apply Z.log2_lt_pow2; [lia|].
  rewrite Z.log2_lor by lia.
  assert (Hpos : 0 < n).
  { destruct (decide (n = 0)) as [->|]; [|lia].
    assert (a = 0) as -> by lia. assert (b = 0) as -> by lia.
    by destruct Hne. }
  apply Z.max_lub_lt.
  - destruct (decide (a = 0)) as [->|]; [exact Hpos|].
    apply Z.log2_lt_pow2; lia.
  - destruct (decide (b = 0)) as [->|]; [exact Hpos|].
    apply Z.log2_lt_pow2; lia.
Qed.

Lemma continuation_octet (n : Z) :
  0 <= n -> 0 <= Z.lor 0x80 (Z.land n 0x3F) < 256.
Proof.
  intros Hn. apply (Z_lor_bound _ _ 8); [lia|lia|].
  change 0x3F with (Z.ones 6). rewrite Z.land_ones by lia.
  pose proof (Z.mod_pos_bound n (2 ^ 6) ltac:(lia)). lia.
Qed.

Lemma shiftr_bound (n k hi : Z) :
  0 <= n < 2 ^ hi -> 0 <= k <= hi -> 0 <= Z.shiftr n k < 2 ^ (hi - k).
Proof.
  intros Hn Hk. rewrite Z.shiftr_div_pow2 by lia. split.
  - apply Z.div_pos; lia.
  - apply Z.div_lt_upper_bound; [lia|].
    rewrite <- Z.pow_add_r by lia. replace (k + (hi - k)) with hi by lia. lia.
Qed.

Lemma utf_8_encode_char_octets (c : Z) (b : list Z) :
  utf_8_encode_char c = Some b -> Forall (fun x => 0 <= x < 256) b.
Proof.
  unfold utf_8_encode_char.
  destruct (Z.ltb_spec c 0); [discriminate|].
  destruct (Z.ltb_spec c 0x80).
  { intros [= <-]. repeat constructor; lia. }
  destruct (Z.ltb_spec c 0x800).
  { intros [= <-].
    pose proof (shiftr_bound c 6 11 ltac:(lia) ltac:(lia)) as Hs. simpl in Hs.
    repeat constructor; try (apply continuation_octet; lia).
    all: apply (Z_lor_bound _ _ 8); lia. }
  destruct (Z.ltb_spec c 0x10000).
  { destruct ((0xD800 <=? c) && (c <=? 0xDFFF)); [discriminate|].
    intros [= <-].
    pose proof (shiftr_bound c 12 16 ltac:(lia) ltac:(lia)) as Hs. simpl in Hs.
    pose proof (Z.shiftr_nonneg c 6) as Hs6.
    repeat constructor; try (apply continuation_octet; lia).
    all: apply (Z_lor_bound _ _ 8); lia. }
  destruct (Z.ltb_spec c 0x110000); [|discriminate].
  intros [= <-].
  pose proof (shiftr_bound c 18 21 ltac:(lia) ltac:(lia)) as Hs. simpl in Hs.
  pose proof (Z.shiftr_nonneg c 6) as Hs6.
  pose proof (Z.shiftr_nonneg c 12) as Hs12.
  repeat constructor; try (apply continuation_octet; lia).
  all: apply (Z_lor_bound _ _ 8); lia.
Qed.

Lemma utf_8_encode_octets (s b : list Z) :
  utf_8_encode s = Some b -> Forall (fun x => 0 <= x < 256) b.
Proof.
  revert b. induction s as [|c s IH]; simpl; intros b.
  - intros [= <-]. constructor.
  - destruct (utf_8_encode_char c) as [x|] eqn:Hc; [|discriminate].
    destruct (utf_8_encode s) as [xs|]; [|discriminate].
    intros [= <-]. apply Forall_app. split.
    + by eapply utf_8_encode_char_octets.
    + by apply IH.
Qed.

(** ** The two extractors *)

Lemma pdf_loop_acc (pages : list PyPDF2.PageObject) (acc : list Z) :
  fold_left (fun text page => text ++ (PyPDF2.extract_text page ++ [NL])) pages acc
  = acc ++ newline_after_each (map PyPDF2.extract_text pages).
Proof.
  revert acc. induction pages as [|page pages IH]; intros acc; simpl.
  - by rewrite app_nil_r.
  - rewrite IH. by rewrite <- !app_assoc.
Qed.

Lemma pdf_text_spec (reader : PyPDF2.PdfReader) :
  pdf_text reader
  = newline_after_each (map PyPDF2.extract_text (PyPDF2.pages reader)).
Proof. unfold pdf_text. by rewrite pdf_loop_acc. Qed.

Lemma join_loop_acc (sep : list Z) (items : list (list Z)) (acc : list Z) :
  fold_left (fun res item => res ++ sep ++ item) items acc
  = acc ++ concat (map (fun item => sep ++ item) items).
Proof.
  revert acc. induction items as [|item items IH]; intros acc; simpl.
  - by rewrite app_nil_r.
  - rewrite IH. by rewrite <- !app_assoc.
Qed.

Lemma newline_between_cons (p : list Z) (rest : list (list Z)) :
  newline_between (p :: rest) = p ++ concat (map (fun q => [NL] ++ q) rest).
Proof.
  revert p. induction rest as [|q rest IH]; intros p.
  - simpl. by rewrite app_nil_r.
  - change (newline_between (p :: q :: rest))
      with (p ++ [NL] ++ newline_between (q :: rest)).
    rewrite IH. reflexivity.
Qed.

Lemma str_join_spec (items : list (list Z)) :
  str_join [NL] items = newline_between items.
Proof.
  destruct items as [|p rest]; [reflexivity|].
  unfold str_join. by rewrite join_loop_acc, newline_between_cons.
Qed.

Lemma newline_between_length (texts : list (list Z)) :
  length (newline_between texts)
  = (total_length texts + (length texts - 1))%nat.
Proof.
  induction texts as [|p [|q rest] IH].
  - reflexivity.
  - simpl. lia.
  - change (newline_between (p :: q :: rest))
      with (p ++ [NL] ++ newline_between (q :: rest)).
    rewrite !length_app, IH. simpl. lia.
Qed.


(** The loop changes nothing of the world. *)
Lemma pdf_loop_outcome (steps : list (result (list Z))) (text : list Z) (w : World) :
  pdf_loop steps text w = (loop_outcome steps text, w).
Proof.
  revert text. induction steps as [|[t|e] steps IH]; intros text;
    [reflexivity| |reflexivity].
  simpl. unfold bind, of_result. apply IH.
Qed.

(** The loop returns exactly when every step does, and then it returns what
    the loop over the texts gives. *)
Lemma loop_outcome_Return (steps : list (result (list Z))) (acc t : list Z) :
  loop_outcome steps acc = Return t <->
  exists texts,
    all_returned steps = Some texts
    /\ t = fold_left (fun text page => text ++ (PyPDF2.extract_text page ++ [NL]))
                     (map PyPDF2.Build_PageObject texts) acc.
Proof.
  revert acc. induction steps as [|[t0|e] steps IH]; intros acc; simpl.
  - split.
    + intros [= <-]. by exists [].
    + intros (texts & [= <-] & ->). reflexivity.
  - rewrite IH. split.
    + intros (texts & Hall & ->). exists (t0 :: texts). by rewrite Hall.
    + intros (texts & Hall & ->).
      destruct (all_returned steps) as [texts'|]; [|discriminate].
      injection Hall as <-. by exists texts'.
  - split; [discriminate|]. by intros (texts & [=] & _).
Qed.


Section Extractors.
Context {libs : Libraries}.

(** The extractors read the world and leave it as it is. *)
Lemma read_pdf_outcome (file_path : string) (w : World) :
  read_pdf file_path w = (pdf_outcome file_path (fs w !! file_path), w).
Proof.
  unfold read_pdf, bind, open_rb, pdf_outcome.
  destruct (fs w !! file_path) as [f|]; [|reflexivity].
  destruct (readable f); [|reflexivity].
  unfold of_result. destruct (PdfReader_init (data f)) as [steps|e]; [|reflexivity].
  apply pdf_loop_outcome.
Qed.

Lemma read_docx_outcome (file_path : string) (w : World) :
  read_docx file_path w = (docx_outcome file_path (fs w !! file_path), w).
Proof.
  unfold read_docx, bind, docx_Document, docx_outcome.
  destruct (fs w !! file_path) as [f|]; [|reflexivity].
  destruct (readable f); [|reflexivity].
  by destruct (Document_init (data f)).
Qed.

(** A document that is parsed is one on which the loop runs to its end. *)
Lemma parse_pdf_Some (b : list Z) (reader : PyPDF2.PdfReader) :
  parse_pdf b = Some reader ->
  match PdfReader_init b with
  | Return steps => loop_outcome steps []
  | Raise e => Raise e
  end = Return (pdf_text reader).
Proof.
  unfold parse_pdf. destruct (PdfReader_init b) as [steps|e]; [|discriminate].
  destruct (all_returned steps) as [texts|] eqn:Hall; [|discriminate].
  intros [= <-]. apply loop_outcome_Return. by exists texts.
Qed.

Lemma parse_pdf_of_Return (b t : list Z) :
  match PdfReader_init b with
  | Return steps => loop_outcome steps []
  | Raise e => Raise e
  end = Return t ->
  exists reader, parse_pdf b = Some reader /\ t = pdf_text reader.
Proof.
  unfold parse_pdf. destruct (PdfReader_init b) as [steps|e]; [|discriminate].
  intros (texts & Hall & ->)%loop_outcome_Return. rewrite Hall.
  by eexists.
Qed.

Lemma parse_docx_Some (b : list Z) (doc : docx.Document) :
  parse_docx b = Some doc <-> Document_init b = Return doc.
Proof.
  unfold parse_docx. destruct (Document_init b); split; congruence.
Qed.

(** C1. For a PDF of N pages with extractable texts T_1..T_N, [read_pdf]
    returns T_1 + "\n" + T_2 + "\n" + ... + T_N + "\n": every page's text in
    document order, a newline after each page, the last included. *)
Theorem read_pdf_newline_after_each_page
    (w : World) (file_path : string) (f : File) (reader : PyPDF2.PdfReader) :
  fs w !! file_path = Some f ->
  readable f = true ->
  parse_pdf (data f) = Some reader ->
  read_pdf file_path w
  = (Return (newline_after_each (map PyPDF2.extract_text (PyPDF2.pages reader))), w).
Proof.
  intros Hf Hr Hparse.
  rewrite read_pdf_outcome, Hf. unfold pdf_outcome.
  by rewrite Hr, (parse_pdf_Some _ _ Hparse), pdf_text_spec.
Qed.

(** C2. For a DOCX of M paragraphs with texts P_1..P_M, [read_docx] returns
    P_1 + "\n" + P_2 + ... + "\n" + P_M: the paragraph texts in document
    order with one newline between consecutive paragraphs, and no newline
    added in front or at the end (the result is M - 1 code points longer than
    the texts together). *)
Theorem read_docx_newline_between_paragraphs
    (w : World) (file_path : string) (f : File) (doc : docx.Document) :
  fs w !! file_path = Some f ->
  readable f = true ->
  parse_docx (data f) = Some doc ->
  let texts := map docx.text (docx.paragraphs doc) in
  read_docx file_path w = (Return (newline_between texts), w)
  /\ length (newline_between texts)
     = (total_length texts + (length (docx.paragraphs doc) - 1))%nat.
Proof.
  intros Hf Hr Hparse texts. split.
  - rewrite read_docx_outcome, Hf. unfold docx_outcome.
    apply parse_docx_Some in Hparse. by rewrite Hr, Hparse, str_join_spec.
  - rewrite newline_between_length. unfold texts. by rewrite length_map.
Qed.

End Extractors.

Lemma read_pdf_newline_after_each_page_witness :
  fs world_ok !! PDF_PATH
    = Some (plain_file (lit "%PDF" ++ lit "ab" ++ [12] ++ lit "c" ++ [12]))
  /\ @read_pdf toy PDF_PATH world_ok
     = (Return (lit "ab" ++ [NL] ++ lit "c" ++ [NL]), world_ok).
Proof.
  split; [reflexivity|].
  exact (@read_pdf_newline_after_each_page toy world_ok PDF_PATH _
           {| PyPDF2.pages := [ {| PyPDF2.extract_text := lit "ab" |};
                                {| PyPDF2.extract_text := lit "c" |} ] |}
           eq_refl eq_refl eq_refl).
Defined.

Lemma read_docx_newline_between_paragraphs_witness :
  fs world_ok !! DOCX_PATH
    = Some (plain_file (lit "PK" ++ lit "x" ++ [13] ++ lit "yz" ++ [13]))
  /\ @read_docx toy DOCX_PATH world_ok
     = (Return (lit "x" ++ [NL] ++ lit "yz"), world_ok).
Proof.
  split; [reflexivity|].
  exact (proj1 (@read_docx_newline_between_paragraphs toy world_ok DOCX_PATH _
           {| docx.paragraphs := [ {| docx.text := lit "x" |};
                                   {| docx.text := lit "yz" |} ] |}
           eq_refl eq_refl eq_refl)).
Defined.

(** ** The [with] block *)

Lemma paths_distinct :
  PDF_PATH <> OUT_PATH /\ DOCX_PATH <> OUT_PATH /\ PDF_PATH <> DOCX_PATH.
Proof. repeat split; discriminate. Qed.

Lemma write_open (out : string) (s : list Z) (w : World) (buf b : list Z) :
  streams w !! out = Some buf ->
  utf_8_encode s = Some b ->
  write out s w = (Return tt, set_streams <[out := buf ++ b]> w).
Proof. intros Hs Hb. unfold write. by rewrite Hs, Hb. Qed.

Lemma write_unencodable (out : string) (s : list Z) (w : World) :
  utf_8_encode s = None ->
  write out s w = (Raise UnicodeEncodeError, w).
Proof. intros Hb. unfold write. by rewrite Hb. Qed.

Lemma codecs_open_w_ok (path : string) (w : World) :
  can_open_w path w = true ->
  codecs_open_w path w
  = (Return path,
     set_streams <[path := []]> (set_fs <[path := opened_file path w]> w)).
Proof.
  unfold can_open_w, codecs_open_w, opened_file.
  destruct (fs w !! path) as [f|].
  - by intros ->.
  - by destruct (directory w !! path) as [[]|].
Qed.

Lemma codecs_open_w_fails (path : string) (w : World) :
  can_open_w path w = false ->
  exists e, codecs_open_w path w = (Raise e, w) /\ file_access_error e = true.
Proof.
  unfold can_open_w, codecs_open_w.
  destruct (fs w !! path) as [f|].
  - intros ->. by eexists.
  - destruct (directory w !! path) as [[]|]; [discriminate| |]; by eexists.
Qed.


Lemma set_streams_insert_insert (p : string) (b b' : list Z) (w : World) :
  set_streams <[p := b']> (set_streams <[p := b]> w) = set_streams <[p := b']> w.
Proof. unfold set_streams. simpl. f_equal. apply insert_insert_eq. Qed.

Lemma close_open_stream (p : string) (b : list Z) (f : File) (w : World) :
  close p (set_streams <[p := b]> (set_fs <[p := f]> w))
  = set_streams (delete p) (set_fs <[p := appended b f]> w).
Proof.
  unfold close. cbn [streams set_streams set_fs]. rewrite lookup_insert_eq.
  unfold set_streams, set_fs. simpl. f_equal.
  - apply alter_insert_eq.
  - apply delete_insert_eq.
Qed.

Lemma stream_of_open (p : string) (b : list Z) (w : World) :
  streams (set_streams <[p := b]> w) !! p = Some b.
Proof. cbn [streams set_streams]. apply lookup_insert_eq. Qed.

Section Main.
Context {libs : Libraries}.

Lemma main_opened (w : World) :
  can_open_w OUT_PATH w = true ->
  main w =
  let '(r, b) := body_outcome (pdf_outcome PDF_PATH (fs w !! PDF_PATH))
                              (docx_outcome DOCX_PATH (fs w !! DOCX_PATH)) in
  (r, closed_world b w).
Proof.
  intros Hopen. destruct paths_distinct as (Hpo & Hdo & _).
  unfold main, bind. rewrite (codecs_open_w_ok _ _ Hopen).
  unfold on_exit, bind, closed_world.
  rewrite (write_open _ _ _ [] HEADER_PDF);
    [|apply stream_of_open|exact encode_HEADER_PDF].
  rewrite set_streams_insert_insert, read_pdf_outcome.
  cbn [fs set_streams set_fs]. rewrite lookup_insert_ne by done.
  destruct (pdf_outcome PDF_PATH (fs w !! PDF_PATH)) as [tp|e]; cbn [body_outcome];
    [|by rewrite close_open_stream].
  destruct (utf_8_encode tp) as [bp|] eqn:Hbp.
  2:{ rewrite write_unencodable by exact Hbp.
      by rewrite (close_open_stream OUT_PATH). }
  rewrite (write_open _ _ _ ([] ++ HEADER_PDF) bp);
    [|apply lookup_insert_eq|exact Hbp].
  rewrite (set_streams_insert_insert OUT_PATH).
  rewrite (write_open _ _ _ (([] ++ HEADER_PDF) ++ bp) HEADER_DOCX);
    [|apply stream_of_open|exact encode_HEADER_DOCX].
  rewrite set_streams_insert_insert, read_docx_outcome.
  cbn [fs set_streams set_fs]. rewrite lookup_insert_ne by done.
  destruct (docx_outcome DOCX_PATH (fs w !! DOCX_PATH)) as [td|e].
  2:{ rewrite (close_open_stream OUT_PATH). by rewrite <- !app_assoc. }
  destruct (utf_8_encode td) as [bd|] eqn:Hbd.
  2:{ rewrite write_unencodable by exact Hbd.
      rewrite (close_open_stream OUT_PATH). by rewrite <- !app_assoc. }
  rewrite (write_open _ _ _ ((([] ++ HEADER_PDF) ++ bp) ++ HEADER_DOCX) bd);
    [|apply lookup_insert_eq|exact Hbd].
  rewrite (set_streams_insert_insert OUT_PATH), (close_open_stream OUT_PATH).
  by rewrite <- !app_assoc.
Qed.

Lemma main_not_opened (w : World) :
  can_open_w OUT_PATH w = false ->
  exists e, main w = (Raise e, w) /\ file_access_error e = true.
Proof.
  intros Hno. destruct (codecs_open_w_fails _ _ Hno) as (e & He & Hfa).
  exists e. split; [|exact Hfa]. unfold main, bind. by rewrite He.
Qed.

Lemma file_bytes_closed_world (b : list Z) (w : World) :
  file_bytes OUT_PATH (closed_world b w) = Some b.
Proof.
  unfold file_bytes, closed_world. cbn [fs set_streams set_fs].
  rewrite lookup_insert_eq. simpl. unfold opened_file.
  by destruct (fs w !! OUT_PATH).
Qed.

End Main.

(** ** Start-up *)

(** What pip writes lies in the package directory. *)
Lemma install_files_outside (modules : gset string) (files : gmap string File)
    (path : string) :
  outside_site_packages path ->
  install_files modules files !! path = files !! path.
Proof.
  intros Hout. unfold install_files.
  apply (set_fold_ind_L (fun acc _ => acc !! path = files !! path)); [done|].
  intros name X acc _ IH. rewrite lookup_insert_ne; [exact IH|].
  intros Heq. by apply (Hout name).
Qed.

(** The three paths of the script are outside the package directory. *)
Lemma paths_outside_site_packages :
  outside_site_packages OUT_PATH /\ outside_site_packages PDF_PATH
  /\ outside_site_packages DOCX_PATH.
Proof. repeat split; intros name; discriminate. Qed.

Lemma same_files_refl (w : World) : same_files w w.
Proof. by repeat split. Qed.

Lemma import_or_install_present (name package : string) (w : World) :
  name ∈ importable w ->
  import_or_install name package w = (Return tt, log (EvImport name) w).
Proof.
  intros Hin. unfold import_or_install, try_except, import_.
  by rewrite decide_True.
Qed.

Lemma import_or_install_pip_fails (name package : string) (w : World) :
  name ∉ importable w ->
  pip_index w !! package = None ->
  import_or_install name package w
  = (Raise (CalledProcessError package),
     log (EvPipInstall package) (log (EvImport name) w)).
Proof.
  intros Hout Hpip. unfold import_or_install, try_except, import_.
  rewrite decide_False by done. cbn [is_ImportError].
  unfold bind, pip_install. cbn [pip_index log]. by rewrite Hpip.
Qed.

Lemma import_or_install_pip_ok (name package : string) (modules : gset string)
    (w : World) :
  name ∉ importable w ->
  pip_index w !! package = Some modules ->
  import_or_install name package w
  = (if decide (name ∈ modules) then Return tt else Raise (ImportError name),
     log (EvImport name)
       (set_fs (install_files modules)
          (set_importable (union modules)
             (log (EvPipInstall package) (log (EvImport name) w))))).
Proof.
  intros Hout Hpip. unfold import_or_install, try_except.
  unfold import_ at 1. rewrite decide_False by done. cbn [is_ImportError].
  unfold bind, pip_install. cbn [pip_index log]. rewrite Hpip.
  unfold import_. cbn [importable set_importable set_fs log].
  destruct (decide (name ∈ modules)) as [Hin|Hnin].
  - rewrite decide_True; [reflexivity|]. apply elem_of_union. by left.
  - rewrite decide_False; [reflexivity|].
    intros [?|?]%elem_of_union; contradiction.
Qed.

Lemma new_events_app (w w' : World) (evs : list Event) :
  trace w' = trace w ++ evs -> new_events w w' = evs.
Proof. intros Heq. unfold new_events. rewrite Heq. apply drop_app_length. Qed.

(** One block of the start-up, in full: what it returns, what it adds to the
    trace, and that it touches nothing but the installed modules. *)
Lemma import_or_install_frame (name package : string) (w : World) :
  let w' := snd (import_or_install name package w) in
  same_files w w' /\ importable w ⊆ importable w'
  /\ (exists evs, trace w' = trace w ++ evs
        /\ (forall p, EvPipInstall p ∈ evs -> p = package /\ name ∉ importable w)
        /\ (count_occ Event_eq_dec evs (EvPipInstall package) <= 1)%nat)
  /\ (fst (import_or_install name package w) = Return tt -> name ∈ importable w').
Proof.
  assert (Hcount : forall evs : list Event,
            evs = [EvImport name] \/ evs = [EvImport name; EvPipInstall package]
            \/ evs = [EvImport name; EvPipInstall package; EvImport name] ->
            (count_occ Event_eq_dec evs (EvPipInstall package) <= 1)%nat).
  { intros evs [ -> | [ -> | -> ] ];
      repeat first [ rewrite count_occ_cons_eq by reflexivity
                   | rewrite count_occ_cons_neq by discriminate ];
      simpl; lia. }
  destruct (decide (name ∈ importable w)) as [Hin|Hout].
  { rewrite (import_or_install_present _ _ _ Hin). cbn [fst snd].
    split; [by repeat split|]. split; [done|]. split; [|done].
    exists [EvImport name]. split; [done|]. split; [|auto].
    intros p Hp. apply list_elem_of_singleton in Hp. discriminate. }
  destruct (pip_index w !! package) as [modules|] eqn:Hpip.
  - rewrite (import_or_install_pip_ok _ _ _ _ Hout Hpip). cbn [fst snd].
    split.
    { split; [|done]. intros path Hpath.
      cbn [fs log set_fs set_importable]. by apply install_files_outside. }
    split; [cbn [importable log set_fs set_importable]; set_solver|].
    split.
    + exists [EvImport name; EvPipInstall package; EvImport name].
      split; [cbn [trace log set_fs set_importable]; by rewrite <- !app_assoc|].
      split; [|auto].
      intros p Hp. split; [|done].
      rewrite !elem_of_cons in Hp. destruct Hp as [ Hp | [ Hp | [ Hp | Hp ] ] ];
        try discriminate; [congruence|by apply elem_of_nil in Hp].
    + cbn [importable log set_fs set_importable].
      destruct (decide (name ∈ modules)); [set_solver|discriminate].
  - rewrite (import_or_install_pip_fails _ _ _ Hout Hpip). cbn [fst snd].
    split; [by repeat split|]. split; [done|]. split; [|discriminate].
    exists [EvImport name; EvPipInstall package].
    split; [cbn [trace log]; by rewrite <- !app_assoc|].
    split; [|auto].
    intros p Hp. split; [|done].
    rewrite !elem_of_cons in Hp. destruct Hp as [ Hp | [ Hp | Hp ] ];
      try discriminate; [congruence|by apply elem_of_nil in Hp].
Qed.

Lemma same_files_trans (w1 w2 w3 : World) :
  same_files w1 w2 -> same_files w2 w3 -> same_files w1 w3.
Proof.
  unfold same_files. intros (Hfs1 & Hd1 & Hs1 & Hp1) (Hfs2 & Hd2 & Hs2 & Hp2).
  split; [|split; [|split]]; try congruence.
  intros path Hpath. by rewrite Hfs2, Hfs1.
Qed.

Lemma startup_unfold (w : World) :
  startup w =
  match import_or_install "PyPDF2" "PyPDF2" w with
  | (Return _, w1) => import_or_install "docx" "python-docx" w1
  | (Raise e, w1) => (Raise e, w1)
  end.
Proof. reflexivity. Qed.

Lemma count_occ_absent (evs : list Event) (ev : Event) :
  ev ∉ evs -> count_occ Event_eq_dec evs ev = 0%nat.
Proof. intros Hnin. apply count_occ_not_In. by rewrite <- list_elem_of_In. Qed.

(** The start-up as a whole. *)
Lemma startup_frame (w : World) :
  let w' := snd (startup w) in
  same_files w w' /\ importable w ⊆ importable w'
  /\ (exists evs, trace w' = trace w ++ evs
        /\ (forall p, EvPipInstall p ∈ evs ->
              (p = "PyPDF2"%string /\ "PyPDF2"%string ∉ importable w)
              \/ (p = "python-docx"%string /\ "docx"%string ∉ importable w))
        /\ (count_occ Event_eq_dec evs (EvPipInstall "PyPDF2") <= 1)%nat
        /\ (count_occ Event_eq_dec evs (EvPipInstall "python-docx") <= 1)%nat)
  /\ (fst (startup w) = Return tt ->
        "PyPDF2"%string ∈ importable w' /\ "docx"%string ∈ importable w').
Proof.
  rewrite startup_unfold.
  pose proof (import_or_install_frame "PyPDF2" "PyPDF2" w) as H1.
  destruct (import_or_install "PyPDF2" "PyPDF2" w) as [[[]|e] w1];
    cbn [fst snd] in H1; destruct H1 as (Hf1 & Hi1 & (evs1 & Ht1 & Hp1 & Hc1) & Hok1).
  - pose proof (import_or_install_frame "docx" "python-docx" w1) as H2.
    destruct (import_or_install "docx" "python-docx" w1) as [r2 w2];
      cbn [fst snd] in *; destruct H2 as (Hf2 & Hi2 & (evs2 & Ht2 & Hp2 & Hc2) & Hok2).
    split; [by eapply same_files_trans|]. split; [by etrans|]. split.
    + exists (evs1 ++ evs2).
      split; [by rewrite Ht2, Ht1, <- app_assoc|]. split; [|split].
      * intros p [Hp|Hp]%elem_of_app.
        -- left. by apply Hp1.
        -- right. destruct (Hp2 p Hp) as [-> Hn]. split; [done|]. auto.
      * rewrite count_occ_app.
        rewrite (count_occ_absent evs2); [lia|].
        intros Hp. by destruct (Hp2 _ Hp).
      * rewrite count_occ_app.
        rewrite (count_occ_absent evs1); [lia|].
        intros Hp. by destruct (Hp1 _ Hp).
    + intros Hr. split; [|by apply Hok2]. apply Hi2. by apply Hok1.
  - split; [done|]. split; [done|]. split; [|discriminate].
    exists evs1. split; [done|]. split; [|split].
    + intros p Hp. left. by apply Hp1.
    + done.
    + rewrite count_occ_absent; [lia|].
      intros Hp. by destruct (Hp1 _ Hp).
Qed.

(** What the script reads and writes is as it was. *)
Lemma same_files_documents (w w' : World) :
  same_files w w' ->
  fs w' !! OUT_PATH = fs w !! OUT_PATH
  /\ fs w' !! PDF_PATH = fs w !! PDF_PATH
  /\ fs w' !! DOCX_PATH = fs w !! DOCX_PATH.
Proof.
  intros (Hfs & _). destruct paths_outside_site_packages as (Ho & Hp & Hd).
  by rewrite !Hfs.
Qed.

Lemma can_open_w_same_files (w w' : World) :
  same_files w w' -> can_open_w OUT_PATH w' = can_open_w OUT_PATH w.
Proof.
  intros Hsame. destruct (same_files_documents _ _ Hsame) as (Hfo & _).
  destruct Hsame as (_ & Hc & _). unfold can_open_w. by rewrite Hfo, Hc.
Qed.

Section ScriptLemmas.
Context {libs : Libraries}.

(** The [with] block leaves the trace and the installed modules alone. *)
Lemma main_frame (w : World) :
  trace (snd (main w)) = trace w /\ importable (snd (main w)) = importable w
  /\ pip_index (snd (main w)) = pip_index w.
Proof.
  destruct (can_open_w OUT_PATH w) eqn:Hopen.
  - rewrite (main_opened _ Hopen).
    by destruct (body_outcome _ _) as [r b].
  - destruct (main_not_opened _ Hopen) as (e & -> & _). done.
Qed.

Lemma script_unfold (w : World) :
  script w =
  match startup w with
  | (Return _, w1) => main w1
  | (Raise e, w1) => (Raise e, w1)
  end.
Proof. reflexivity. Qed.

(** A run that succeeds: every stage it went through. *)
Lemma script_success (w w' : World) :
  script w = (Return tt, w') ->
  exists w1 tp td bp bd,
    startup w = (Return tt, w1)
    /\ can_open_w OUT_PATH w = true
    /\ pdf_outcome PDF_PATH (fs w !! PDF_PATH) = Return tp
    /\ docx_outcome DOCX_PATH (fs w !! DOCX_PATH) = Return td
    /\ utf_8_encode tp = Some bp
    /\ utf_8_encode td = Some bd
    /\ w' = closed_world (HEADER_PDF ++ bp ++ HEADER_DOCX ++ bd) w1.
Proof.
  rewrite script_unfold. intros Hrun.
  pose proof (startup_frame w) as (Hsame & _).
  destruct (startup w) as [[[]|e] w1]; [|discriminate]. cbn [snd] in Hsame.
  pose proof (can_open_w_same_files _ _ Hsame) as Hopen.
  destruct (same_files_documents _ _ Hsame) as (_ & Hfp & Hfd).
  destruct (can_open_w OUT_PATH w1) eqn:Hopen1.
  2:{ destruct (main_not_opened _ Hopen1) as (e & He & _). congruence. }
  rewrite (main_opened _ Hopen1), Hfp, Hfd in Hrun.
  unfold body_outcome in Hrun.
  destruct (pdf_outcome PDF_PATH (fs w !! PDF_PATH)) as [tp|]; [|discriminate].
  destruct (utf_8_encode tp) as [bp|] eqn:Hbp; [|discriminate].
  destruct (docx_outcome DOCX_PATH (fs w !! DOCX_PATH)) as [td|]; [|discriminate].
  destruct (utf_8_encode td) as [bd|] eqn:Hbd; [|discriminate].
  injection Hrun as <-. by exists w1, tp, td, bp, bd.
Qed.

End ScriptLemmas.

(** ** The output file *)

Section Output.
Context {libs : Libraries}.

Lemma read_pdf_of_outcome (w : World) (tp : list Z) :
  pdf_outcome PDF_PATH (fs w !! PDF_PATH) = Return tp ->
  read_pdf PDF_PATH w = (Return tp, w).
Proof. intros Ho. by rewrite read_pdf_outcome, Ho. Qed.

Lemma read_docx_of_outcome (w : World) (td : list Z) :
  docx_outcome DOCX_PATH (fs w !! DOCX_PATH) = Return td ->
  read_docx DOCX_PATH w = (Return td, w).
Proof. intros Ho. by rewrite read_docx_outcome, Ho. Qed.

(** C3, as the code has it. After a successful run the output file holds
    exactly: the line "=== TEAM PROJECT INSTRUCTIONS ===", the output of the
    PDF extractor, one newline, the line "=== BASE CASE 1 ===", the output of
    the DOCX extractor; each text in its UTF-8 encoding and nothing else in
    between.  That is the encoding of the four strings the script writes. *)
Theorem script_output_layout (w w' : World) :
  script w = (Return tt, w') ->
  exists tp td bp bd,
    read_pdf PDF_PATH w = (Return tp, w)
    /\ read_docx DOCX_PATH w = (Return td, w)
    /\ utf_8_encode tp = Some bp
    /\ utf_8_encode td = Some bd
    /\ file_bytes OUT_PATH w'
       = Some ((lit "=== TEAM PROJECT INSTRUCTIONS ===" ++ [NL]) ++ bp
               ++ [NL] ++ (lit "=== BASE CASE 1 ===" ++ [NL]) ++ bd)
    /\ file_bytes OUT_PATH w'
       = utf_8_encode (HEADER_PDF ++ tp ++ HEADER_DOCX ++ td).
Proof.
  intros Hrun.
  destruct (script_success _ _ Hrun)
    as (w1 & tp & td & bp & bd & _ & _ & Hp & Hd & Hbp & Hbd & ->).
  exists tp, td, bp, bd.
  split; [by apply read_pdf_of_outcome|].
  split; [by apply read_docx_of_outcome|].
  split; [done|]. split; [done|].
  rewrite file_bytes_closed_world. split; [reflexivity|].
  symmetry. apply utf_8_encode_app_Some; [exact encode_HEADER_PDF|].
  apply utf_8_encode_app_Some; [done|].
  apply utf_8_encode_app_Some; [exact encode_HEADER_DOCX|done].
Qed.

(** C4. Whenever the run succeeds the output file begins with the literal
    header "=== TEAM PROJECT INSTRUCTIONS ===" followed by a newline,
    whatever the PDF and the DOCX hold. *)
Theorem script_output_begins_with_header (w w' : World) :
  script w = (Return tt, w') ->
  exists rest,
    file_bytes OUT_PATH w'
    = Some (lit "=== TEAM PROJECT INSTRUCTIONS ===" ++ [NL] ++ rest).
Proof.
  intros Hrun.
  destruct (script_success _ _ Hrun)
    as (w1 & tp & td & bp & bd & _ & _ & _ & _ & _ & _ & ->).
  exists (bp ++ HEADER_DOCX ++ bd).
  rewrite file_bytes_closed_world. unfold HEADER_PDF. by rewrite <- !app_assoc.
Qed.

(** C5, as the code has it. For a PDF of no pages [read_pdf] returns the
    empty string, and in the output file of a successful run the PDF section
    is empty: the first header line is followed by one newline and then by
    the line "=== BASE CASE 1 ===", the second header being written as
    "\n=== BASE CASE 1 ===\n". *)
Theorem script_empty_pdf (w : World) (f : File) (reader : PyPDF2.PdfReader) :
  fs w !! PDF_PATH = Some f ->
  readable f = true ->
  parse_pdf (data f) = Some reader ->
  PyPDF2.pages reader = [] ->
  read_pdf PDF_PATH w = (Return [], w)
  /\ forall w', script w = (Return tt, w') ->
       exists td bd,
         read_docx DOCX_PATH w = (Return td, w)
         /\ utf_8_encode td = Some bd
         /\ file_bytes OUT_PATH w'
            = Some ((lit "=== TEAM PROJECT INSTRUCTIONS ===" ++ [NL]) ++ []
                    ++ ([NL] ++ lit "=== BASE CASE 1 ===" ++ [NL]) ++ bd).
Proof.
  intros Hf Hr Hparse Hpages.
  assert (Hout : pdf_outcome PDF_PATH (fs w !! PDF_PATH) = Return []).
  { rewrite Hf. unfold pdf_outcome.
    rewrite Hr, (parse_pdf_Some _ _ Hparse). unfold pdf_text. by rewrite Hpages. }
  split; [by apply read_pdf_of_outcome|].
  intros w' Hrun.
  destruct (script_success _ _ Hrun)
    as (w1 & tp & td & bp & bd & _ & _ & Hp & Hd & Hbp & Hbd & ->).
  rewrite Hout in Hp. injection Hp as <-. injection Hbp as <-.
  exists td, bd. split; [by apply read_docx_of_outcome|]. split; [done|].
  by rewrite file_bytes_closed_world.
Qed.

(** C10. For a DOCX of no paragraphs [read_docx] returns the empty string
    and does not raise, so the output file of a successful run ends with the
    line "=== BASE CASE 1 ===", its newline, and nothing after it. *)
Theorem script_empty_docx (w : World) (f : File) (doc : docx.Document) :
  fs w !! DOCX_PATH = Some f ->
  readable f = true ->
  parse_docx (data f) = Some doc ->
  docx.paragraphs doc = [] ->
  read_docx DOCX_PATH w = (Return [], w)
  /\ forall w', script w = (Return tt, w') ->
       exists tp bp,
         read_pdf PDF_PATH w = (Return tp, w)
         /\ utf_8_encode tp = Some bp
         /\ file_bytes OUT_PATH w'
            = Some ((HEADER_PDF ++ bp ++ [NL]) ++ lit "=== BASE CASE 1 ===" ++ [NL]).
Proof.
  intros Hf Hr Hparse Hpars.
  assert (Hout : docx_outcome DOCX_PATH (fs w !! DOCX_PATH) = Return []).
  { rewrite Hf. unfold docx_outcome. apply parse_docx_Some in Hparse.
    by rewrite Hr, Hparse, Hpars. }
  split; [by apply read_docx_of_outcome|].
  intros w' Hrun.
  destruct (script_success _ _ Hrun)
    as (w1 & tp & td & bp & bd & _ & _ & Hp & Hd & Hbp & Hbd & ->).
  rewrite Hout in Hd. injection Hd as <-. injection Hbd as <-.
  exists tp, bp. split; [by apply read_pdf_of_outcome|]. split; [done|].
  rewrite file_bytes_closed_world. unfold HEADER_DOCX.
  by rewrite app_nil_r, <- !app_assoc.
Qed.

(** What a text returned by an extractor says about the file. *)
Lemma pdf_outcome_Return (file_path : string) (o : option File) (t : list Z) :
  pdf_outcome file_path o = Return t ->
  exists f reader,
    o = Some f /\ readable f = true /\ parse_pdf (data f) = Some reader
    /\ t = pdf_text reader.
Proof.
  unfold pdf_outcome. destruct o as [f|]; [|discriminate].
  destruct (readable f) eqn:Hr; [|discriminate].
  intros (reader & Hparse & ->)%parse_pdf_of_Return. by exists f, reader.
Qed.

Lemma docx_outcome_Return (file_path : string) (o : option File) (t : list Z) :
  docx_outcome file_path o = Return t ->
  exists f doc,
    o = Some f /\ readable f = true /\ parse_docx (data f) = Some doc
    /\ t = str_join [NL] (map docx.text (docx.paragraphs doc)).
Proof.
  unfold docx_outcome. destruct o as [f|]; [|discriminate].
  destruct (readable f) eqn:Hr; [|discriminate].
  destruct (Document_init (data f)) as [doc|] eqn:Hparse; [|discriminate].
  intros [= <-]. exists f, doc. by rewrite parse_docx_Some.
Qed.

(** The texts extracted depend on the octets of the input files only. *)
Lemma pdf_outcome_same_bytes (w1 w2 : World) (t1 t2 : list Z) :
  file_bytes PDF_PATH w1 = file_bytes PDF_PATH w2 ->
  pdf_outcome PDF_PATH (fs w1 !! PDF_PATH) = Return t1 ->
  pdf_outcome PDF_PATH (fs w2 !! PDF_PATH) = Return t2 ->
  t1 = t2.
Proof.
  unfold file_bytes. intros Hsame H1 H2.
  apply pdf_outcome_Return in H1 as (f1 & r1 & Hf1 & _ & Hp1 & ->).
  apply pdf_outcome_Return in H2 as (f2 & r2 & Hf2 & _ & Hp2 & ->).
  rewrite Hf1, Hf2 in Hsame. simpl in Hsame. injection Hsame as Hdata.
  rewrite Hdata in Hp1. congruence.
Qed.

Lemma docx_outcome_same_bytes (w1 w2 : World) (t1 t2 : list Z) :
  file_bytes DOCX_PATH w1 = file_bytes DOCX_PATH w2 ->
  docx_outcome DOCX_PATH (fs w1 !! DOCX_PATH) = Return t1 ->
  docx_outcome DOCX_PATH (fs w2 !! DOCX_PATH) = Return t2 ->
  t1 = t2.
Proof.
  unfold file_bytes. intros Hsame H1 H2.
  apply docx_outcome_Return in H1 as (f1 & r1 & Hf1 & _ & Hp1 & ->).
  apply docx_outcome_Return in H2 as (f2 & r2 & Hf2 & _ & Hp2 & ->).
  rewrite Hf1, Hf2 in Hsame. simpl in Hsame. injection Hsame as Hdata.
  rewrite Hdata in Hp1. congruence.
Qed.

(** C7. Two runs on input files with the same octets produce output files
    with the same octets, whatever else differs between the two worlds (what
    the output file held before, which libraries had to be installed). *)
Theorem script_deterministic (w1 w2 w1' w2' : World) :
  file_bytes PDF_PATH w1 = file_bytes PDF_PATH w2 ->
  file_bytes DOCX_PATH w1 = file_bytes DOCX_PATH w2 ->
  script w1 = (Return tt, w1') ->
  script w2 = (Return tt, w2') ->
  file_bytes OUT_PATH w1' = file_bytes OUT_PATH w2'.
Proof.
  intros Hpdf Hdocx Hrun1 Hrun2.
  destruct (script_success _ _ Hrun1)
    as (v1 & tp1 & td1 & bp1 & bd1 & _ & _ & Hp1 & Hd1 & Hbp1 & Hbd1 & ->).
  destruct (script_success _ _ Hrun2)
    as (v2 & tp2 & td2 & bp2 & bd2 & _ & _ & Hp2 & Hd2 & Hbp2 & Hbd2 & ->).
  rewrite !file_bytes_closed_world.
  pose proof (pdf_outcome_same_bytes _ _ _ _ Hpdf Hp1 Hp2) as <-.
  pose proof (docx_outcome_same_bytes _ _ _ _ Hdocx Hd1 Hd2) as <-.
  congruence.
Qed.

(** X14. Run again on what the first run left, the script succeeds again
    and writes the same octets: idempotence under fixed inputs. *)
Lemma script_rerun (w w' : World) :
  script w = (Return tt, w') ->
  exists w'', script w' = (Return tt, w'')
    /\ file_bytes OUT_PATH w'' = file_bytes OUT_PATH w'.
Proof.
  intros Hrun. destruct paths_distinct as (Hpo & Hdo & _).
  destruct (script_success _ _ Hrun)
    as (w1 & tp & td & bp & bd & Hstart & Hopen & Hp & Hd & Hbp & Hbd & ->).
  pose proof (startup_frame w) as (Hsame & _ & _ & Hmods).
  rewrite Hstart in Hsame, Hmods. cbn [fst snd] in Hsame, Hmods.
  destruct (Hmods eq_refl) as [Hm1 Hm2].
  destruct (same_files_documents _ _ Hsame) as (Hfo & Hfp & Hfd).
  set (b := HEADER_PDF ++ bp ++ HEADER_DOCX ++ bd).
  set (w2 := log (EvImport "docx") (log (EvImport "PyPDF2") (closed_world b w1))).
  assert (Hstart2 : startup (closed_world b w1) = (Return tt, w2)).
  { rewrite startup_unfold, import_or_install_present by done.
    by rewrite import_or_install_present. }
  assert (Hfs2 : fs w2 = <[OUT_PATH := appended b (opened_file OUT_PATH w1)]> (fs w1)).
  { reflexivity. }
  assert (Hopen2 : can_open_w OUT_PATH w2 = true).
  { unfold can_open_w. rewrite Hfs2, lookup_insert_eq.
    unfold appended, opened_file. cbn [writable].
    unfold can_open_w in Hopen. rewrite Hfo.
    by destruct (fs w !! OUT_PATH). }
  exists (closed_world b w2). split.
  - rewrite script_unfold, Hstart2, (main_opened _ Hopen2), Hfs2.
    rewrite !lookup_insert_ne by done. rewrite Hfp, Hfd, Hp, Hd.
    unfold body_outcome. by rewrite Hbp, Hbd.
  - by rewrite !file_bytes_closed_world.
Qed.

End Output.

(** ** Errors *)

Lemma can_open_w_iff (path : string) (w : World) :
  can_open_w path w = true <-> fst (codecs_open_w path w) = Return path.
Proof.
  split.
  - intros Hopen. by rewrite (codecs_open_w_ok _ _ Hopen).
  - intros Hret. destruct (can_open_w path w) eqn:Hopen; [done|].
    destruct (codecs_open_w_fails _ _ Hopen) as (e & He & _).
    rewrite He in Hret. discriminate.
Qed.


(** One block of the start-up against the fallback of the spec. *)
Lemma import_or_install_fallback (name package : string) (w : World) :
  let w' := snd (import_or_install name package w) in
  fst (import_or_install name package w)
  = fallback_result name package (importable w) (pip_index w)
  /\ trace w' = trace w ++ fallback_events name package (importable w) (pip_index w)
  /\ importable w' = fallback_importable name package (importable w) (pip_index w)
  /\ pip_index w' = pip_index w.
Proof.
  unfold fallback_result, fallback_events, fallback_importable.
  destruct (decide (name ∈ importable w)) as [Hin|Hout].
  { by rewrite (import_or_install_present _ _ _ Hin). }
  destruct (pip_index w !! package) as [modules|] eqn:Hpip.
  - rewrite (import_or_install_pip_ok _ _ _ _ Hout Hpip).
    cbn [fst snd trace importable pip_index log set_fs set_importable].
    by rewrite <- !app_assoc.
  - rewrite (import_or_install_pip_fails _ _ _ Hout Hpip).
    cbn [fst snd trace importable pip_index log]. by rewrite <- !app_assoc.
Qed.


Section Errors.
Context {libs : Libraries}.



(** The run from the [with] block on, when the output file can be opened. *)
Lemma script_opened (w w1 : World) :
  startup w = (Return tt, w1) ->
  can_open_w OUT_PATH w = true ->
  script w =
  let '(r, b) := body_outcome (pdf_outcome PDF_PATH (fs w !! PDF_PATH))
                              (docx_outcome DOCX_PATH (fs w !! DOCX_PATH)) in
  (r, closed_world b w1).
Proof.
  intros Hstart Hopen.
  pose proof (startup_frame w) as (Hsame & _). rewrite Hstart in Hsame.
  cbn [snd] in Hsame.
  destruct (same_files_documents _ _ Hsame) as (_ & Hfp & Hfd).
  rewrite script_unfold, Hstart, main_opened.
  - by rewrite Hfp, Hfd.
  - by rewrite (can_open_w_same_files _ _ Hsame).
Qed.


(** C6, as the code has it. With no file at the PDF path, a run that gets
    past the start-up ends with an uncaught file-access error.  The output
    file is opened for writing before the PDF is looked at: if that
    succeeded, the output file has been created or emptied and holds the
    first header line and nothing else; if it did not, the output file is
    neither created nor changed. *)
Theorem script_missing_pdf (w w1 : World) :
  startup w = (Return tt, w1) ->
  fs w !! PDF_PATH = None ->
  exists e w',
    script w = (Raise e, w')
    /\ file_access_error e = true
    /\ if can_open_w OUT_PATH w
       then e = FileNotFoundError PDF_PATH
            /\ file_bytes OUT_PATH w' = Some HEADER_PDF
       else fs w' !! OUT_PATH = fs w !! OUT_PATH.
Proof.
  intros Hstart Hnone.
  destruct (can_open_w OUT_PATH w) eqn:Hopen.
  - rewrite (script_opened _ _ Hstart Hopen), Hnone. cbn.
    eexists _, _. split; [reflexivity|]. split; [done|]. split; [done|].
    apply file_bytes_closed_world.
  - pose proof (startup_frame w) as (Hsame & _). rewrite Hstart in Hsame.
    cbn [snd] in Hsame.
    rewrite <- (can_open_w_same_files _ _ Hsame) in Hopen.
    destruct (main_not_opened _ Hopen) as (e & He & Hfa).
    exists e, w1. rewrite script_unfold, Hstart.
    split; [done|]. split; [done|].
    by destruct (same_files_documents _ _ Hsame).
Qed.

(** C9. The start-up does for each of the two libraries, PyPDF2 first, what
    the fallback of the spec says, and nothing else: a module that imports
    is imported and nothing is installed; a module that does not import is
    followed by exactly one run of pip for its package and, if pip
    succeeded, exactly one more import.  A failing pip ends the start-up
    with [CalledProcessError] and a failing second import with
    [ImportError]; the second library is then not looked at.  An exception
    that leaves the start-up leaves the script, and the rest of the script
    imports and installs nothing: over a whole run a package is installed
    exactly once when its module did not import, and not at all when it
    did.  With both modules importable the start-up leaves the world as it
    was, the record of the two imports apart. *)
Theorem startup_installs_once (w : World) :
  let imp := importable w in
  let pip := pip_index w in
  let r1 := fallback_result "PyPDF2" "PyPDF2" imp pip in
  let ev1 := fallback_events "PyPDF2" "PyPDF2" imp pip in
  let imp1 := fallback_importable "PyPDF2" "PyPDF2" imp pip in
  (fst (startup w), new_events w (snd (startup w)), importable (snd (startup w)))
  = match r1 with
    | Raise e => (Raise e, ev1, imp1)
    | Return _ =>
        (fallback_result "docx" "python-docx" imp1 pip,
         ev1 ++ fallback_events "docx" "python-docx" imp1 pip,
         fallback_importable "docx" "python-docx" imp1 pip)
    end
  /\ (forall e, fst (startup w) = Raise e ->
        script w = (Raise e, snd (startup w)))
  /\ new_events w (snd (script w)) = new_events w (snd (startup w))
  /\ count_occ Event_eq_dec (new_events w (snd (script w)))
       (EvPipInstall "PyPDF2")
     = (if decide ("PyPDF2"%string ∈ imp) then 0 else 1)%nat
  /\ count_occ Event_eq_dec (new_events w (snd (script w)))
       (EvPipInstall "python-docx")
     = match r1 with
       | Raise _ => 0%nat
       | Return _ => if decide ("docx"%string ∈ imp1) then 0%nat else 1%nat
       end
  /\ ("PyPDF2"%string ∈ imp -> "docx"%string ∈ imp ->
      startup w
      = (Return tt, log (EvImport "docx") (log (EvImport "PyPDF2") w))).
Proof.
  intros imp pip r1 ev1 imp1.
  assert (Hstartup :
    (fst (startup w), new_events w (snd (startup w)), importable (snd (startup w)))
    = match r1 with
      | Raise e => (Raise e, ev1, imp1)
      | Return _ =>
          (fallback_result "docx" "python-docx" imp1 pip,
           ev1 ++ fallback_events "docx" "python-docx" imp1 pip,
           fallback_importable "docx" "python-docx" imp1 pip)
      end).
  { rewrite startup_unfold.
    pose proof (import_or_install_fallback "PyPDF2" "PyPDF2" w) as H1.
    destruct (import_or_install "PyPDF2" "PyPDF2" w) as [r w1].
    cbn [fst snd] in H1. destruct H1 as (Hr1 & Ht1 & Hi1 & Hp1).
    fold imp pip r1 in Hr1. fold imp pip ev1 in Ht1. fold imp pip imp1 in Hi1.
    rewrite <- Hr1. destruct r as [[]|e].
    - pose proof (import_or_install_fallback "docx" "python-docx" w1) as H2.
      destruct (import_or_install "docx" "python-docx" w1) as [r2 w2].
      cbn [fst snd] in *. destruct H2 as (Hr2 & Ht2 & Hi2 & _).
      rewrite Hi1, Hp1 in Hr2, Ht2, Hi2. fold pip in Hr2, Ht2, Hi2.
      rewrite Hr2, Hi2. f_equal. f_equal.
      apply new_events_app. by rewrite Ht2, Ht1, <- app_assoc.
    - cbn [fst snd]. rewrite Hi1. f_equal. f_equal. by apply new_events_app. }
  assert (Hscript : new_events w (snd (script w)) = new_events w (snd (startup w))).
  { rewrite script_unfold. destruct (startup w) as [[[]|e] w1]; [|done].
    unfold new_events. by destruct (main_frame w1) as (-> & _). }
  split; [exact Hstartup|]. split.
  { intros e He. rewrite script_unfold.
    destruct (startup w) as [[[]|e'] w1]; [discriminate|].
    cbn [fst snd] in *. congruence. }
  split; [exact Hscript|].
  rewrite Hscript.
  assert (Hev : new_events w (snd (startup w))
                = match r1 with
                  | Raise _ => ev1
                  | Return _ => ev1 ++ fallback_events "docx" "python-docx" imp1 pip
                  end).
  { destruct r1; by injection Hstartup. }
  rewrite Hev. unfold r1, ev1, fallback_result, fallback_events.
  split; [|split].
  3:{ intros Hin1 Hin2.
      rewrite startup_unfold, import_or_install_present by exact Hin1.
      by rewrite import_or_install_present. }
  - destruct (decide ("PyPDF2"%string ∈ imp)).
    + cbn match. rewrite count_occ_app.
      destruct (decide ("docx"%string ∈ imp1)); [reflexivity|].
      by destruct (pip !! "python-docx"%string).
    + destruct (pip !! "PyPDF2"%string) as [m1|]; [|reflexivity].
      destruct (decide ("PyPDF2"%string ∈ m1)); [|reflexivity].
      rewrite count_occ_app.
      destruct (decide ("docx"%string ∈ imp1)); [reflexivity|].
      by destruct (pip !! "python-docx"%string).
  - destruct (decide ("PyPDF2"%string ∈ imp)).
    + cbn match. rewrite count_occ_app.
      destruct (decide ("docx"%string ∈ imp1)); [reflexivity|].
      by destruct (pip !! "python-docx"%string).
    + destruct (pip !! "PyPDF2"%string) as [m1|]; [|reflexivity].
      destruct (decide ("PyPDF2"%string ∈ m1)); [|reflexivity].
      rewrite count_occ_app.
      destruct (decide ("docx"%string ∈ imp1)); [reflexivity|].
      by destruct (pip !! "python-docx"%string).
Qed.

End Errors.

(** ** Concrete runs *)

Lemma script_output_layout_witness :
  @script toy world_ok = (Return tt, snd (@script toy world_ok))
  /\ exists tp td bp bd,
       @read_pdf toy PDF_PATH world_ok = (Return tp, world_ok)
       /\ @read_docx toy DOCX_PATH world_ok = (Return td, world_ok)
       /\ utf_8_encode tp = Some bp
       /\ utf_8_encode td = Some bd
       /\ file_bytes OUT_PATH (snd (@script toy world_ok))
          = Some ((lit "=== TEAM PROJECT INSTRUCTIONS ===" ++ [NL]) ++ bp
                  ++ [NL] ++ (lit "=== BASE CASE 1 ===" ++ [NL]) ++ bd)
       /\ file_bytes OUT_PATH (snd (@script toy world_ok))
          = utf_8_encode (HEADER_PDF ++ tp ++ HEADER_DOCX ++ td).
Proof.
  split; [vm_compute; reflexivity|].
  apply (@script_output_layout toy world_ok). vm_compute. reflexivity.
Defined.

(** C3, as stated, fails on a two-page PDF and a two-paragraph DOCX: the file
    is not the first header line, the PDF text, the line
    "=== BASE CASE 1 ===" and the DOCX text put end to end, because the
    script writes a newline in front of the second header. *)
Lemma script_output_layout_not_as_claimed :
  @script toy world_ok = (Return tt, snd (@script toy world_ok))
  /\ @read_pdf toy PDF_PATH world_ok
     = (Return (lit "ab" ++ [NL] ++ lit "c" ++ [NL]), world_ok)
  /\ @read_docx toy DOCX_PATH world_ok
     = (Return (lit "x" ++ [NL] ++ lit "yz"), world_ok)
  /\ file_bytes OUT_PATH (snd (@script toy world_ok))
     <> Some ((lit "=== TEAM PROJECT INSTRUCTIONS ===" ++ [NL])
              ++ (lit "ab" ++ [NL] ++ lit "c" ++ [NL])
              ++ (lit "=== BASE CASE 1 ===" ++ [NL])
              ++ (lit "x" ++ [NL] ++ lit "yz"))
  /\ file_bytes OUT_PATH (snd (@script toy world_ok))
     = Some ((lit "=== TEAM PROJECT INSTRUCTIONS ===" ++ [NL])
             ++ (lit "ab" ++ [NL] ++ lit "c" ++ [NL])
             ++ [NL] ++ (lit "=== BASE CASE 1 ===" ++ [NL])
             ++ (lit "x" ++ [NL] ++ lit "yz")).
Proof.
  split; [vm_compute; reflexivity|].
  split; [vm_compute; reflexivity|].
  split; [vm_compute; reflexivity|].
  split; [vm_compute; discriminate|].
  vm_compute. reflexivity.
Qed.

Lemma script_output_begins_with_header_witness :
  @script toy world_ok = (Return tt, snd (@script toy world_ok))
  /\ exists rest,
       file_bytes OUT_PATH (snd (@script toy world_ok))
       = Some (lit "=== TEAM PROJECT INSTRUCTIONS ===" ++ [NL] ++ rest).
Proof.
  split; [vm_compute; reflexivity|].
  apply (@script_output_begins_with_header toy world_ok).
  vm_compute. reflexivity.
Defined.

Lemma script_empty_pdf_witness :
  fs world_empty_docs !! PDF_PATH = Some (plain_file (lit "%PDF"))
  /\ @parse_pdf toy (lit "%PDF") = Some {| PyPDF2.pages := [] |}
  /\ @script toy world_empty_docs
     = (Return tt, snd (@script toy world_empty_docs))
  /\ @read_pdf toy PDF_PATH world_empty_docs = (Return [], world_empty_docs)
  /\ exists td bd,
       @read_docx toy DOCX_PATH world_empty_docs = (Return td, world_empty_docs)
       /\ utf_8_encode td = Some bd
       /\ file_bytes OUT_PATH (snd (@script toy world_empty_docs))
          = Some ((lit "=== TEAM PROJECT INSTRUCTIONS ===" ++ [NL]) ++ []
                  ++ ([NL] ++ lit "=== BASE CASE 1 ===" ++ [NL]) ++ bd).
Proof.
  split; [reflexivity|]. split; [reflexivity|].
  split; [vm_compute; reflexivity|].
  pose proof (@script_empty_pdf toy world_empty_docs (plain_file (lit "%PDF"))
                {| PyPDF2.pages := [] |} eq_refl eq_refl eq_refl eq_refl)
    as [Hread Hfile].
  split; [exact Hread|].
  apply Hfile. vm_compute. reflexivity.
Defined.

Lemma script_empty_docx_witness :
  fs world_empty_docs !! DOCX_PATH = Some (plain_file (lit "PK"))
  /\ @parse_docx toy (lit "PK") = Some {| docx.paragraphs := [] |}
  /\ @script toy world_empty_docs
     = (Return tt, snd (@script toy world_empty_docs))
  /\ @read_docx toy DOCX_PATH world_empty_docs = (Return [], world_empty_docs)
  /\ exists tp bp,
       @read_pdf toy PDF_PATH world_empty_docs = (Return tp, world_empty_docs)
       /\ utf_8_encode tp = Some bp
       /\ file_bytes OUT_PATH (snd (@script toy world_empty_docs))
          = Some ((HEADER_PDF ++ bp ++ [NL]) ++ lit "=== BASE CASE 1 ===" ++ [NL]).
Proof.
  split; [reflexivity|]. split; [reflexivity|].
  split; [vm_compute; reflexivity|].
  pose proof (@script_empty_docx toy world_empty_docs (plain_file (lit "PK"))
                {| docx.paragraphs := [] |} eq_refl eq_refl eq_refl eq_refl)
    as [Hread Hfile].
  split; [exact Hread|].
  apply Hfile. vm_compute. reflexivity.
Defined.

Lemma script_missing_pdf_witness :
  startup world_no_pdf = (Return tt, snd (startup world_no_pdf))
  /\ fs world_no_pdf !! PDF_PATH = None
  /\ exists e w',
       @script toy world_no_pdf = (Raise e, w')
       /\ file_access_error e = true
       /\ if can_open_w OUT_PATH world_no_pdf
          then e = FileNotFoundError PDF_PATH
               /\ file_bytes OUT_PATH w' = Some HEADER_PDF
          else fs w' !! OUT_PATH = fs world_no_pdf !! OUT_PATH.
Proof.
  split; [vm_compute; reflexivity|]. split; [reflexivity|].
  apply (@script_missing_pdf toy world_no_pdf (snd (startup world_no_pdf)));
    vm_compute; reflexivity.
Defined.

(** C6, as stated, fails: with no PDF at its path the run ends with
    [FileNotFoundError], but an output file left by an earlier run has been
    emptied and rewritten to the first header line, and where there was no
    output file one has been created with that line in it. *)
Lemma script_missing_pdf_output_touched :
  (fs world_no_pdf !! PDF_PATH = None
   /\ file_bytes OUT_PATH world_no_pdf = Some (lit "old")
   /\ fst (@script toy world_no_pdf) = Raise (FileNotFoundError PDF_PATH)
   /\ file_bytes OUT_PATH (snd (@script toy world_no_pdf))
      = Some (lit "=== TEAM PROJECT INSTRUCTIONS ===" ++ [NL])
   /\ fs (snd (@script toy world_no_pdf)) !! OUT_PATH
      <> fs world_no_pdf !! OUT_PATH)
  /\ (fs world_bare !! PDF_PATH = None
      /\ fs world_bare !! OUT_PATH = None
      /\ fst (@script toy world_bare) = Raise (FileNotFoundError PDF_PATH)
      /\ file_bytes OUT_PATH (snd (@script toy world_bare))
         = Some (lit "=== TEAM PROJECT INSTRUCTIONS ===" ++ [NL])
      /\ fs (snd (@script toy world_bare)) !! OUT_PATH
         <> fs world_bare !! OUT_PATH).
Proof.
  split.
  - split; [reflexivity|]. split; [reflexivity|].
    split; [vm_compute; reflexivity|]. split; [vm_compute; reflexivity|].
    vm_compute. discriminate.
  - split; [reflexivity|]. split; [reflexivity|].
    split; [vm_compute; reflexivity|]. split; [vm_compute; reflexivity|].
    vm_compute. discriminate.
Qed.

Lemma script_deterministic_witness :
  file_bytes PDF_PATH world_ok = file_bytes PDF_PATH world_ok_again
  /\ file_bytes DOCX_PATH world_ok = file_bytes DOCX_PATH world_ok_again
  /\ @script toy world_ok = (Return tt, snd (@script toy world_ok))
  /\ @script toy world_ok_again = (Return tt, snd (@script toy world_ok_again))
  /\ file_bytes OUT_PATH world_ok <> file_bytes OUT_PATH world_ok_again
  /\ file_bytes OUT_PATH (snd (@script toy world_ok))
     = file_bytes OUT_PATH (snd (@script toy world_ok_again)).
Proof.
  split; [reflexivity|]. split; [reflexivity|].
  split; [vm_compute; reflexivity|]. split; [vm_compute; reflexivity|].
  split; [vm_compute; discriminate|].
  apply (@script_deterministic toy world_ok world_ok_again);
    vm_compute; reflexivity.
Defined.

(** C5, as stated, fails on a PDF of no pages: [read_pdf] returns the empty
    string and the run succeeds, but what follows the first header line in
    the file is not the header "=== BASE CASE 1 ===": a newline stands
    between them, the one the script writes in front of the second header. *)
Lemma script_empty_pdf_not_as_claimed :
  fs world_empty_docs !! PDF_PATH = Some (plain_file (lit "%PDF"))
  /\ @parse_pdf toy (lit "%PDF") = Some {| PyPDF2.pages := [] |}
  /\ @read_pdf toy PDF_PATH world_empty_docs = (Return [], world_empty_docs)
  /\ @script toy world_empty_docs
     = (Return tt, snd (@script toy world_empty_docs))
  /\ (forall rest,
        file_bytes OUT_PATH (snd (@script toy world_empty_docs))
        <> Some ((lit "=== TEAM PROJECT INSTRUCTIONS ===" ++ [NL]) ++ []
                 ++ lit "=== BASE CASE 1 ===" ++ rest))
  /\ file_bytes OUT_PATH (snd (@script toy world_empty_docs))
     = Some ((lit "=== TEAM PROJECT INSTRUCTIONS ===" ++ [NL]) ++ []
             ++ [NL] ++ lit "=== BASE CASE 1 ===" ++ [NL]).
Proof.
  split; [reflexivity|]. split; [reflexivity|].
  split; [vm_compute; reflexivity|]. split; [vm_compute; reflexivity|].
  split; [|vm_compute; reflexivity].
  intros rest Heq. vm_compute in Heq. discriminate Heq.
Qed.



Lemma startup_installs_once_witness :
  importable world_fresh = ∅
  /\ new_events world_fresh (snd (@script toy world_fresh))
     = [EvImport "PyPDF2"; EvPipInstall "PyPDF2"; EvImport "PyPDF2";
        EvImport "docx"; EvPipInstall "python-docx"; EvImport "docx"]
  /\ count_occ Event_eq_dec (new_events world_fresh (snd (@script toy world_fresh)))
       (EvPipInstall "PyPDF2") = 1%nat
  /\ count_occ Event_eq_dec (new_events world_fresh (snd (@script toy world_fresh)))
       (EvPipInstall "python-docx") = 1%nat
  /\ count_occ Event_eq_dec (new_events world_ok (snd (@script toy world_ok)))
       (EvPipInstall "PyPDF2") = 0%nat
  /\ count_occ Event_eq_dec (new_events world_ok (snd (@script toy world_ok)))
       (EvPipInstall "python-docx") = 0%nat.
Proof.
  split; [reflexivity|]. split; [vm_compute; reflexivity|].
  pose proof (@startup_installs_once toy world_fresh) as Hfresh.
  pose proof (@startup_installs_once toy world_ok) as Hok.
  cbv zeta in Hfresh, Hok.
  destruct Hfresh as (_ & _ & _ & Hf1 & Hf2 & _).
  destruct Hok as (_ & _ & _ & Ho1 & Ho2 & _).
  split; [exact Hf1|]. split; [exact Hf2|]. split; [exact Ho1|exact Ho2].
Defined.

(** Start-up on a machine with neither library: each package is installed
    once, each module imported twice, and the run goes on. *)
Example startup_fresh :
  startup world_fresh
  = (Return tt, snd (startup world_fresh))
  /\ trace (snd (startup world_fresh))
     = [EvImport "PyPDF2"; EvPipInstall "PyPDF2"; EvImport "PyPDF2";
        EvImport "docx"; EvPipInstall "python-docx"; EvImport "docx"].
Proof. split; vm_compute; reflexivity. Qed.

(** Start-up with both libraries there: two imports and nothing else. *)
Example startup_installed :
  startup world_ok
  = (Return tt, log (EvImport "docx") (log (EvImport "PyPDF2") world_ok)).
Proof. vm_compute. reflexivity. Qed.

(** Start-up where pip cannot install the first package: the run ends there,
    the second library is never looked for. *)
Example startup_pip_fails :
  let w := set_importable (fun _ => ∅) world_ok in
  fst (@script toy w) = Raise (CalledProcessError "PyPDF2")
  /\ trace (snd (@script toy w)) = [EvImport "PyPDF2"; EvPipInstall "PyPDF2"]
  /\ fs (snd (@script toy w)) = fs w.
Proof. repeat split; vm_compute; reflexivity. Qed.

(** A text with a lone surrogate cannot be written: the codec refuses it. *)
Example encode_surrogate : utf_8_encode (lit "a" ++ [0xD800]) = None.
Proof. reflexivity. Qed.

Example encode_euro_e_acute_emoji :
  utf_8_encode [0x20AC; 0xE9; 0x1F600; 0x41]
  = Some [226; 130; 172; 195; 169; 240; 159; 152; 128; 65].
Proof. reflexivity. Qed.

(** * Further properties of the script *)

(** ** The texts the extractors build *)



(** X3. [read_docx] joins to the empty string in exactly two cases: no
    paragraph at all, or one paragraph that is empty.  The output cannot tell
    the two apart. *)
Theorem str_join_empty_iff (texts : list (list Z)) :
  str_join [NL] texts = [] <-> texts = [] \/ texts = [[]].
Proof.
  rewrite str_join_spec. split.
  - destruct texts as [|p [|q rest]]; [by left| |].
    + simpl. intros ->. by right.
    + change (newline_between (p :: q :: rest))
        with (p ++ [NL] ++ newline_between (q :: rest)).
      intros Hnil. destruct (app_eq_nil _ _ Hnil) as [_ Hnl]. discriminate.
  - by intros [->| ->].
Qed.

Lemma newline_after_each_between (texts : list (list Z)) :
  texts <> [] -> newline_after_each texts = newline_between texts ++ [NL].
Proof.
  induction texts as [|p [|q rest] IH]; [done| |]; intros _.
  - reflexivity.
  - change (newline_after_each (p :: q :: rest))
      with (p ++ [NL] ++ newline_after_each (q :: rest)).
    change (newline_between (p :: q :: rest))
      with (p ++ [NL] ++ newline_between (q :: rest)).
    rewrite IH by done. by rewrite <- !app_assoc.
Qed.

(** X4. When every step of the loop of [read_pdf] returns, and there is at
    least one, the loop returns what ['\n'.join] makes of the same texts with
    one more newline at the end: the PDF extractor's layout is the DOCX
    extractor's layout and a final newline. *)
Theorem pdf_loop_is_join_and_newline
    (steps : list (result (list Z))) (texts : list (list Z)) (w : World) :
  all_returned steps = Some texts ->
  texts <> [] ->
  pdf_loop steps [] w = (Return (str_join [NL] texts ++ [NL]), w).
Proof.
  intros Hall Hne. rewrite pdf_loop_outcome. f_equal.
  apply loop_outcome_Return. exists texts. split; [exact Hall|].
  rewrite pdf_loop_acc, map_map, map_id. simpl.
  by rewrite str_join_spec, newline_after_each_between.
Qed.

Lemma pdf_loop_is_join_and_newline_witness :
  all_returned [Return (lit "ab"); Return (lit "c")] = Some [lit "ab"; lit "c"]
  /\ pdf_loop [Return (lit "ab"); Return (lit "c")] [] world_ok
     = (Return (lit "ab" ++ [NL] ++ lit "c" ++ [NL]), world_ok)
  /\ str_join [NL] [lit "ab"; lit "c"] = lit "ab" ++ [NL] ++ lit "c".
Proof.
  split; [reflexivity|]. split; [|reflexivity].
  exact (pdf_loop_is_join_and_newline
           [Return (lit "ab"); Return (lit "c")] [lit "ab"; lit "c"] world_ok
           eq_refl ltac:(discriminate)).
Defined.

(** X5. Neither extractor marks where a text ends other than by the newline:
    two neighbouring paragraphs give the same string as one paragraph that
    holds both with a newline between them, and two neighbouring pages that
    give their texts take the loop of [read_pdf] to where one page with both
    texts takes it, whatever the later steps do. *)
Theorem extractors_do_not_escape_newlines
    (p q : list Z) (rest : list (list Z))
    (steps : list (result (list Z))) (text : list Z) (w : World) :
  str_join [NL] (p :: q :: rest) = str_join [NL] ((p ++ [NL] ++ q) :: rest)
  /\ pdf_loop (Return p :: Return q :: steps) text w
     = pdf_loop (Return (p ++ [NL] ++ q) :: steps) text w.
Proof.
  split.
  - unfold str_join. simpl. reflexivity.
  - rewrite !pdf_loop_outcome. f_equal. simpl. f_equal.
    by rewrite <- !app_assoc.
Qed.

(** ** What a run does to the world *)

Lemma import_or_install_errors (name package : string) (w : World) (e : exn) :
  fst (import_or_install name package w) = Raise e ->
  e = CalledProcessError package \/ e = ImportError name.
Proof.
  destruct (decide (name ∈ importable w)) as [Hin|Hout].
  { by rewrite (import_or_install_present _ _ _ Hin). }
  destruct (pip_index w !! package) as [modules|] eqn:Hpip.
  - rewrite (import_or_install_pip_ok _ _ _ _ Hout Hpip). cbn [fst].
    destruct (decide (name ∈ modules)); [discriminate|]. intros [= <-]. by right.
  - rewrite (import_or_install_pip_fails _ _ _ Hout Hpip). cbn [fst].
    intros [= <-]. by left.
Qed.

Section Further.
Context {libs : Libraries}.

(** X6. However the run ends, both input files are as they were: nothing
    the run does, the installing of packages included, writes to the PDF
    path or to the DOCX path. *)
Theorem script_leaves_inputs_alone (w : World) :
  fs (snd (script w)) !! PDF_PATH = fs w !! PDF_PATH
  /\ fs (snd (script w)) !! DOCX_PATH = fs w !! DOCX_PATH.
Proof.
  destruct paths_distinct as (Hpo & Hdo & _). rewrite script_unfold.
  pose proof (startup_frame w) as (Hsame & _).
  destruct (same_files_documents _ _ Hsame) as (_ & Hfp & Hfd).
  destruct (startup w) as [[[]|e] w1]; cbn [snd] in *; [|done].
  rewrite <- Hfp, <- Hfd. destruct (can_open_w OUT_PATH w1) eqn:Hopen.
  - rewrite (main_opened _ Hopen). destruct (body_outcome _ _) as [r b].
    cbn [snd closed_world fs set_streams set_fs].
    by rewrite !lookup_insert_ne.
  - by destruct (main_not_opened _ Hopen) as (e & -> & _).
Qed.

(** X7. The output stream is closed on every way out of the [with] block:
    started with no stream open on the output path, the run ends, by return
    or by exception, with the open streams exactly as they were. *)
Theorem script_leaves_no_stream_open (w : World) :
  streams w !! OUT_PATH = None ->
  streams (snd (script w)) = streams w.
Proof.
  intros Hclosed. rewrite script_unfold.
  pose proof (startup_frame w) as ((_ & _ & Hst & _) & _).
  destruct (startup w) as [[[]|e] w1]; cbn [snd] in *; [|done].
  rewrite <- Hst in *. destruct (can_open_w OUT_PATH w1) eqn:Hopen.
  - rewrite (main_opened _ Hopen). destruct (body_outcome _ _) as [r b].
    cbn [snd closed_world streams set_streams set_fs].
    by apply delete_id.
  - by destruct (main_not_opened _ Hopen) as (e & -> & _).
Qed.

(** X8. When the PDF is read and written but the DOCX cannot be read, the
    run ends with the DOCX extractor's exception and leaves a partial output
    file: the first header, the PDF text and the second header, with nothing
    after it. *)
Theorem script_docx_failure_partial_output
    (w w1 : World) (tp bp : list Z) (e : exn) :
  startup w = (Return tt, w1) ->
  fst (codecs_open_w OUT_PATH w) = Return OUT_PATH ->
  fst (read_pdf PDF_PATH w) = Return tp ->
  utf_8_encode tp = Some bp ->
  fst (read_docx DOCX_PATH w) = Raise e ->
  exists w',
    script w = (Raise e, w')
    /\ file_bytes OUT_PATH w' = Some (HEADER_PDF ++ bp ++ HEADER_DOCX).
Proof.
  intros Hstart Hopen%can_open_w_iff Hp Hbp Hd.
  rewrite read_pdf_outcome in Hp. rewrite read_docx_outcome in Hd.
  cbn [fst] in Hp, Hd.
  rewrite (script_opened _ _ Hstart Hopen), Hp, Hd. unfold body_outcome.
  rewrite Hbp. eexists. split; [reflexivity|]. apply file_bytes_closed_world.
Qed.

(** X9. A write is all or nothing.  When the PDF text holds a code point the
    codec refuses, the run ends with [UnicodeEncodeError], not one octet of
    that text reaches the file, and the output file holds the first header
    line only. *)
Theorem script_unencodable_pdf_text (w w1 : World) (tp : list Z) :
  startup w = (Return tt, w1) ->
  fst (codecs_open_w OUT_PATH w) = Return OUT_PATH ->
  fst (read_pdf PDF_PATH w) = Return tp ->
  utf_8_encode tp = None ->
  exists w',
    script w = (Raise UnicodeEncodeError, w')
    /\ file_bytes OUT_PATH w' = Some HEADER_PDF.
Proof.
  intros Hstart Hopen%can_open_w_iff Hp Hbp.
  rewrite read_pdf_outcome in Hp. cbn [fst] in Hp.
  rewrite (script_opened _ _ Hstart Hopen), Hp. unfold body_outcome.
  rewrite Hbp. eexists. split; [reflexivity|]. apply file_bytes_closed_world.
Qed.

(** X10. The run succeeds exactly when every stage does: the start-up
    returns, the output file can be opened for writing, both extractors
    return a text, and both texts can be encoded. *)
Theorem script_succeeds_iff (w : World) :
  (exists w', script w = (Return tt, w')) <->
  (exists w1, startup w = (Return tt, w1))
  /\ fst (codecs_open_w OUT_PATH w) = Return OUT_PATH
  /\ exists tp td,
       fst (read_pdf PDF_PATH w) = Return tp
       /\ fst (read_docx DOCX_PATH w) = Return td
       /\ is_Some (utf_8_encode tp) /\ is_Some (utf_8_encode td).
Proof.
  split.
  - intros [w' Hrun].
    destruct (script_success _ _ Hrun)
      as (w1 & tp & td & bp & bd & Hstart & Hopen & Hp & Hd & Hbp & Hbd & _).
    split; [by exists w1|]. split; [by apply can_open_w_iff|].
    exists tp, td. rewrite read_pdf_outcome, read_docx_outcome. cbn [fst].
    rewrite Hbp, Hbd. eauto.
  - intros ([w1 Hstart] & Hopen%can_open_w_iff & tp & td & Hp & Hd & [bp Hbp] & [bd Hbd]).
    rewrite read_pdf_outcome in Hp. rewrite read_docx_outcome in Hd.
    cbn [fst] in Hp, Hd.
    rewrite (script_opened _ _ Hstart Hopen), Hp, Hd. unfold body_outcome.
    rewrite Hbp, Hbd. by eexists.
Qed.

(** X11. When the output file cannot be opened for writing, the run ends
    with that file-access error right after the start-up, and the output
    file and both input files are as they were. *)
Theorem script_output_unopenable (w w1 : World) (e : exn) :
  startup w = (Return tt, w1) ->
  fst (codecs_open_w OUT_PATH w) = Raise e ->
  script w = (Raise e, w1)
  /\ file_access_error e = true
  /\ fs w1 !! OUT_PATH = fs w !! OUT_PATH
  /\ fs w1 !! PDF_PATH = fs w !! PDF_PATH
  /\ fs w1 !! DOCX_PATH = fs w !! DOCX_PATH.
Proof.
  intros Hstart Hopen.
  pose proof (startup_frame w) as (Hsame & _). rewrite Hstart in Hsame.
  cbn [snd] in Hsame.
  destruct (same_files_documents _ _ Hsame) as (Hfo & Hfp & Hfd).
  destruct (can_open_w OUT_PATH w) eqn:Hcan.
  { apply can_open_w_iff in Hcan. congruence. }
  destruct (codecs_open_w_fails _ _ Hcan) as (e' & He' & Hfa).
  rewrite He' in Hopen. injection Hopen as ->.
  rewrite <- (can_open_w_same_files _ _ Hsame) in Hcan.
  destruct (codecs_open_w_fails _ _ Hcan) as (e1 & He1 & _).
  assert (e1 = e) as ->.
  { unfold codecs_open_w in He', He1. destruct Hsame as (_ & Hc & _).
    rewrite Hfo, Hc in He1.
    destruct (fs w !! OUT_PATH) as [f|].
    - destruct (writable f); congruence.
    - destruct (directory w !! OUT_PATH) as [[]|]; congruence. }
  split; [|done].
  rewrite script_unfold, Hstart. unfold main, bind. by rewrite He1.
Qed.

(** X12. When the start-up fails the run ends there: the exception is pip's
    [CalledProcessError] or the second import's [ImportError] for one of the
    two libraries, and the output file and both input files are as they
    were, whether or not a package was installed before the failure. *)
Theorem script_startup_failure (w w' : World) (e : exn) :
  startup w = (Raise e, w') ->
  script w = (Raise e, w')
  /\ (fs w' !! OUT_PATH = fs w !! OUT_PATH
      /\ fs w' !! PDF_PATH = fs w !! PDF_PATH
      /\ fs w' !! DOCX_PATH = fs w !! DOCX_PATH)
  /\ (e = CalledProcessError "PyPDF2" \/ e = ImportError "PyPDF2"
      \/ e = CalledProcessError "python-docx" \/ e = ImportError "docx").
Proof.
  intros Hstart.
  split; [by rewrite script_unfold, Hstart|].
  pose proof (startup_frame w) as (Hsame & _). rewrite Hstart in Hsame.
  split; [exact (same_files_documents _ _ Hsame)|].
  rewrite startup_unfold in Hstart.
  pose proof (import_or_install_errors "PyPDF2" "PyPDF2" w) as H1.
  destruct (import_or_install "PyPDF2" "PyPDF2" w) as [[[]|e1] v1]; cbn [fst] in H1.
  - pose proof (import_or_install_errors "docx" "python-docx" v1 e) as H2.
    rewrite Hstart in H2. destruct (H2 eq_refl) as [->| ->]; auto.
  - injection Hstart as <- <-. destruct (H1 e1 eq_refl) as [->| ->]; auto.
Qed.

(** X13. When pip can install both packages and each brings its module, the
    start-up succeeds from any state of the interpreter, and both modules
    are importable when it is done. *)
Theorem startup_self_sufficient (w : World) (m1 m2 : gset string) :
  pip_index w !! "PyPDF2"%string = Some m1 -> "PyPDF2"%string ∈ m1 ->
  pip_index w !! "python-docx"%string = Some m2 -> "docx"%string ∈ m2 ->
  fst (startup w) = Return tt
  /\ "PyPDF2"%string ∈ importable (snd (startup w))
  /\ "docx"%string ∈ importable (snd (startup w)).
Proof.
  intros Hp1 Hm1 Hp2 Hm2.
  assert (Hok : fst (startup w) = Return tt).
  { rewrite startup_unfold.
    pose proof (import_or_install_frame "PyPDF2" "PyPDF2" w) as ((_ & _ & _ & Hpip) & _).
    assert (Hr1 : fst (import_or_install "PyPDF2" "PyPDF2" w) = Return tt).
    { destruct (decide ("PyPDF2"%string ∈ importable w)) as [Hin|Hout].
      - by rewrite (import_or_install_present _ _ _ Hin).
      - rewrite (import_or_install_pip_ok _ _ _ _ Hout Hp1). cbn [fst].
        by rewrite decide_True. }
    destruct (import_or_install "PyPDF2" "PyPDF2" w) as [r1 v1].
    cbn [fst snd] in *. subst r1. rewrite <- Hpip in Hp2.
    destruct (decide ("docx"%string ∈ importable v1)) as [Hin|Hout].
    - by rewrite (import_or_install_present _ _ _ Hin).
    - rewrite (import_or_install_pip_ok _ _ _ _ Hout Hp2). cbn [fst].
      by rewrite decide_True. }
  split; [exact Hok|].
  pose proof (startup_frame w) as (_ & _ & _ & Hmods). by apply Hmods.
Qed.

End Further.

Section Again.
Context {libs : Libraries}.

(** X15. A run that follows a successful run finds both libraries
    importable: it imports each once, installs nothing, and leaves the set
    of importable modules as it found it. *)
Theorem script_second_run_installs_nothing (w w' : World) :
  script w = (Return tt, w') ->
  new_events w' (snd (script w')) = [EvImport "PyPDF2"; EvImport "docx"]
  /\ importable (snd (script w')) = importable w'.
Proof.
  intros Hrun.
  destruct (script_success _ _ Hrun)
    as (w1 & tp & td & bp & bd & Hstart & _ & _ & _ & _ & _ & ->).
  pose proof (startup_frame w) as (_ & _ & _ & Hmods).
  rewrite Hstart in Hmods. cbn [fst snd] in Hmods.
  destruct (Hmods eq_refl) as [Hm1 Hm2].
  set (v := closed_world (HEADER_PDF ++ bp ++ HEADER_DOCX ++ bd) w1).
  assert (Hstart2 : startup v
            = (Return tt, log (EvImport "docx") (log (EvImport "PyPDF2") v))).
  { rewrite startup_unfold, import_or_install_present by done.
    by rewrite import_or_install_present. }
  rewrite script_unfold, Hstart2.
  destruct (main_frame (log (EvImport "docx") (log (EvImport "PyPDF2") v)))
    as (Htr & Himp & _).
  split.
  - apply new_events_app. rewrite Htr. cbn [trace log].
    by rewrite <- app_assoc.
  - by rewrite Himp.
Qed.

(** X16. Documents of ASCII text cannot fail at the codec, and their text
    goes into the file as it is: when the start-up returns, the output file
    can be opened and both extractors return ASCII text, the run succeeds
    and the file holds the first header, the PDF text, the second header and
    the DOCX text, one octet per character. *)
Theorem script_ascii_documents (w w1 : World) (tp td : list Z) :
  startup w = (Return tt, w1) ->
  fst (codecs_open_w OUT_PATH w) = Return OUT_PATH ->
  fst (read_pdf PDF_PATH w) = Return tp ->
  fst (read_docx DOCX_PATH w) = Return td ->
  ascii_text tp -> ascii_text td ->
  exists w',
    script w = (Return tt, w')
    /\ file_bytes OUT_PATH w' = Some (HEADER_PDF ++ tp ++ HEADER_DOCX ++ td).
Proof.
  intros Hstart Hopen%can_open_w_iff Hp Hd Hap Had.
  rewrite read_pdf_outcome in Hp. rewrite read_docx_outcome in Hd.
  cbn [fst] in Hp, Hd.
  rewrite (script_opened _ _ Hstart Hopen), Hp, Hd. unfold body_outcome.
  rewrite (utf_8_encode_ascii _ Hap), (utf_8_encode_ascii _ Had).
  eexists. split; [reflexivity|]. apply file_bytes_closed_world.
Qed.

End Again.

(** X17. Two writes in a row put into the stream what one write of the two
    strings joined puts there, and end the same way, provided the second
    string can be encoded.  (When it cannot, the two writes leave the first
    string in the stream and the single write leaves nothing.) *)
Theorem write_write (out : string) (a b : list Z) (w : World) :
  is_Some (utf_8_encode b) ->
  (write out a ;; write out b) w = write out (a ++ b) w.
Proof.
  intros [bb Hb]. unfold bind, write. rewrite utf_8_encode_app, Hb.
  destruct (utf_8_encode a) as [ba|]; [|reflexivity].
  destruct (streams w !! out) as [buf|] eqn:Hs; [|reflexivity].
  cbn [streams set_streams]. rewrite lookup_insert_eq.
  rewrite set_streams_insert_insert. by rewrite <- app_assoc.
Qed.

(** ** Concrete runs of the further properties *)

Lemma script_leaves_inputs_alone_witness :
  fst (@script toy world_half_install) = Raise (CalledProcessError "python-docx")
  /\ fs (snd (@script toy world_half_install)) !! site_packages "PyPDF2"
     = Some new_file
  /\ fs world_half_install !! site_packages "PyPDF2" = None
  /\ fs (snd (@script toy world_half_install)) !! PDF_PATH
     = fs world_half_install !! PDF_PATH
  /\ fs (snd (@script toy world_half_install)) !! DOCX_PATH
     = fs world_half_install !! DOCX_PATH.
Proof.
  split; [vm_compute; reflexivity|]. split; [vm_compute; reflexivity|].
  split; [vm_compute; reflexivity|].
  exact (@script_leaves_inputs_alone toy world_half_install).
Defined.

Lemma script_leaves_no_stream_open_witness :
  streams world_no_pdf !! OUT_PATH = None
  /\ fst (@script toy world_no_pdf) = Raise (FileNotFoundError PDF_PATH)
  /\ streams (snd (@script toy world_no_pdf)) = streams world_no_pdf.
Proof.
  split; [reflexivity|]. split; [vm_compute; reflexivity|].
  apply (@script_leaves_no_stream_open toy world_no_pdf). reflexivity.
Defined.

Lemma script_docx_failure_partial_output_witness :
  fs world_no_docx !! DOCX_PATH = None
  /\ exists w',
       @script toy world_no_docx = (Raise (PackageNotFoundError DOCX_PATH), w')
       /\ file_bytes OUT_PATH w'
          = Some (HEADER_PDF ++ (lit "ab" ++ [NL]) ++ HEADER_DOCX).
Proof.
  split; [reflexivity|].
  apply (@script_docx_failure_partial_output toy world_no_docx
           (snd (startup world_no_docx)) (lit "ab" ++ [NL]));
    vm_compute; reflexivity.
Defined.

Lemma script_unencodable_pdf_text_witness :
  fst (@read_pdf toy_wide PDF_PATH world_surrogate) = Return [0xD800; NL]
  /\ utf_8_encode [0xD800; NL] = None
  /\ exists w',
       @script toy_wide world_surrogate = (Raise UnicodeEncodeError, w')
       /\ file_bytes OUT_PATH w' = Some HEADER_PDF.
Proof.
  split; [vm_compute; reflexivity|]. split; [reflexivity|].
  apply (@script_unencodable_pdf_text toy_wide world_surrogate
           (snd (startup world_surrogate)) [0xD800; NL]);
    vm_compute; reflexivity.
Defined.

Lemma script_output_unopenable_witness :
  fs world_no_write_dir !! OUT_PATH = None
  /\ fst (codecs_open_w OUT_PATH world_no_write_dir)
     = Raise (PermissionError OUT_PATH)
  /\ @script toy world_no_write_dir
     = (Raise (PermissionError OUT_PATH), snd (startup world_no_write_dir))
  /\ fs (snd (@script toy world_no_write_dir)) !! OUT_PATH = None.
Proof.
  split; [reflexivity|]. split; [reflexivity|].
  destruct (@script_output_unopenable toy world_no_write_dir
              (snd (startup world_no_write_dir)) (PermissionError OUT_PATH))
    as (Hrun & _ & Hout & _); [vm_compute; reflexivity|reflexivity|].
  split; [exact Hrun|]. rewrite Hrun. exact Hout.
Defined.

Lemma script_startup_failure_witness :
  startup world_half_install
  = (Raise (CalledProcessError "python-docx"), snd (startup world_half_install))
  /\ "PyPDF2"%string ∈ importable (snd (startup world_half_install))
  /\ @script toy world_half_install
     = (Raise (CalledProcessError "python-docx"), snd (startup world_half_install))
  /\ fs (snd (startup world_half_install)) !! OUT_PATH = None
  /\ fs (snd (startup world_half_install)) !! PDF_PATH
     = fs world_half_install !! PDF_PATH
  /\ fs (snd (startup world_half_install)) !! DOCX_PATH
     = fs world_half_install !! DOCX_PATH.
Proof.
  split; [vm_compute; reflexivity|]. split; [by vm_compute|].
  destruct (@script_startup_failure toy world_half_install
              (snd (startup world_half_install)) (CalledProcessError "python-docx"))
    as (Hrun & (Hout & Hpdf & Hdocx) & _); [vm_compute; reflexivity|].
  split; [exact Hrun|]. split; [exact Hout|]. split; [exact Hpdf|exact Hdocx].
Defined.

Lemma startup_self_sufficient_witness :
  importable world_fresh = ∅
  /\ fst (startup world_fresh) = Return tt
  /\ "PyPDF2"%string ∈ importable (snd (startup world_fresh))
  /\ "docx"%string ∈ importable (snd (startup world_fresh)).
Proof.
  split; [reflexivity|].
  apply (startup_self_sufficient world_fresh {[ "PyPDF2"%string ]} {[ "docx"%string ]}).
  - reflexivity.
  - by apply elem_of_singleton.
  - reflexivity.
  - by apply elem_of_singleton.
Defined.

Lemma script_rerun_witness :
  @script toy world_fresh = (Return tt, snd (@script toy world_fresh))
  /\ exists w'',
       @script toy (snd (@script toy world_fresh)) = (Return tt, w'')
       /\ file_bytes OUT_PATH w''
          = file_bytes OUT_PATH (snd (@script toy world_fresh)).
Proof.
  split; [vm_compute; reflexivity|].
  apply (@script_rerun toy world_fresh). vm_compute. reflexivity.
Defined.

Lemma script_second_run_installs_nothing_witness :
  new_events world_fresh (snd (@script toy world_fresh))
  = [EvImport "PyPDF2"; EvPipInstall "PyPDF2"; EvImport "PyPDF2";
     EvImport "docx"; EvPipInstall "python-docx"; EvImport "docx"]
  /\ new_events (snd (@script toy world_fresh))
       (snd (@script toy (snd (@script toy world_fresh))))
     = [EvImport "PyPDF2"; EvImport "docx"]
  /\ importable (snd (@script toy (snd (@script toy world_fresh))))
     = importable (snd (@script toy world_fresh)).
Proof.
  split; [vm_compute; reflexivity|].
  apply (@script_second_run_installs_nothing toy world_fresh).
  vm_compute. reflexivity.
Defined.

Lemma script_ascii_documents_witness :
  ascii_text (lit "ab" ++ [NL] ++ lit "c" ++ [NL])
  /\ ascii_text (lit "x" ++ [NL] ++ lit "yz")
  /\ exists w',
       @script toy world_ok = (Return tt, w')
       /\ file_bytes OUT_PATH w'
          = Some (HEADER_PDF ++ (lit "ab" ++ [NL] ++ lit "c" ++ [NL])
                  ++ HEADER_DOCX ++ (lit "x" ++ [NL] ++ lit "yz")).
Proof.
  assert (Ha : forall s : list Z,
            forallb (fun c => (0 <=? c) && (c <? 0x80)) s = true -> ascii_text s).
  { intros s Hs. apply Forall_forall. intros c Hc.
    rewrite forallb_forall in Hs. apply list_elem_of_In in Hc.
    specialize (Hs c Hc). lia. }
  split; [by apply Ha|]. split; [by apply Ha|].
  apply (@script_ascii_documents toy world_ok (snd (startup world_ok)));
    try (vm_compute; reflexivity); by apply Ha.
Defined.

Lemma write_write_witness :
  is_Some (utf_8_encode (lit "b"))
  /\ (write OUT_PATH (lit "a") ;; write OUT_PATH (lit "b"))
       (set_streams <[OUT_PATH := []]> world_ok)
     = write OUT_PATH (lit "ab") (set_streams <[OUT_PATH := []]> world_ok).
Proof.
  split; [by eexists|].
  apply (write_write OUT_PATH (lit "a") (lit "b")). by eexists.
Defined.
